(** * The cloud entry points of tensorcircuit (tensorcircuit/cloud/apis.py)

    A shallow embedding of the routing, naming and credential layer:
    provider and device resolution, the process-wide default context that
    [set_provider] and [set_device] broadcast over [sys.modules], the token
    cache with its persisted file, composite task references, and the
    provider-keyed dispatch of the seven backend operations.

    Conventions.
    - A Python [str] is represented by the bytes of its UTF-8 encoding, as a
      [string].  Concatenation, equality, [startswith] and [split] on strs
      are the same operations on these bytes.  A str that holds a lone
      surrogate has no UTF-8 encoding (and [.encode("utf-8")] rejects it);
      such strs are outside the representation.
    - A [dict] with str keys is a [gmap string _].
    - Module globals live in [sys_modules]; a function of apis.py reads and
      writes its globals in the entry of its own module.
    - A Python exception is a value of [exn]; a call is a state transformer
      that returns [Ok v] or [Raise e] together with the state it leaves. *)

From Stdlib Require Import String Ascii NArith Bool Lia.
From stdpp Require Import base option list gmap strings fin_maps.

Local Open Scope string_scope.

(** ** Python strings *)

Module Str.

(** [s.startswith(p)] *)
Definition startswith (s p : string) : bool := String.prefix p s.

(** [s.find(sub)] for a non-empty [sub]: the index of the leftmost
    occurrence, [None] where Python answers -1. *)
Fixpoint find (sub s : string) : option nat :=
  if String.prefix sub s then Some O
  else match s with
       | EmptyString => None
       | String _ s' => S <$> find sub s'
       end.

(** [s.split(sep)] for a non-empty [sep] (Python raises ValueError on the
    empty separator).  The scan goes left to right; [skip] counts the
    characters of a matched separator that are still to be passed over.
    The head of the result is the segment being read. *)
Fixpoint split_go (sep : string) (skip : nat) (s : string) : list string :=
  match s with
  | EmptyString => [EmptyString]
  | String c s' =>
      match skip with
      | S k => split_go sep k s'
      | O =>
          if String.prefix sep s
          then EmptyString :: split_go sep (String.length sep - 1) s'
          else match split_go sep O s' with
               | seg :: rest => String c seg :: rest
               | [] => [String c EmptyString]
               end
      end
  end.

Definition split (s sep : string) : list string := split_go sep O s.

End Str.

(** ** base64 and UTF-8 (the standard library calls of [b64encode_s] and
    [b64decode_s]) *)

Module Base64.

Definition alphabet : string :=
  "ABCDEFGHIJKLMNOPQRSTUVWXYZabcdefghijklmnopqrstuvwxyz0123456789+/".

Definition pad : ascii := "="%char.

(** The character of a 6-bit value. *)
Definition enc (i : N) : ascii :=
  match String.get (N.to_nat i) alphabet with
  | Some c => c
  | None => pad
  end.

Fixpoint index_of (c : ascii) (s : string) : option N :=
  match s with
  | EmptyString => None
  | String x s' => if Ascii.eqb c x then Some 0%N else N.succ <$> index_of c s'
  end.

(** The 6-bit value of a character, [None] outside the alphabet. *)
Definition dec (c : ascii) : option N := index_of c alphabet.

Definition byte (a : ascii) : N := N_of_ascii a.

(** The four 6-bit groups of the three bytes [a b c]. *)
Definition sx0 (a : ascii) : N := N.shiftr (byte a) 2.
Definition sx1 (a b : ascii) : N :=
  N.lor (N.shiftl (N.land (byte a) 3) 4) (N.shiftr (byte b) 4).
Definition sx2 (b c : ascii) : N :=
  N.lor (N.shiftl (N.land (byte b) 15) 2) (N.shiftr (byte c) 6).
Definition sx3 (c : ascii) : N := N.land (byte c) 63.

(** [base64.b64encode]: three bytes give four characters; a last group of
    one or two bytes is filled with zero bits and padded with [=]. *)
Fixpoint b64encode (bs : string) : string :=
  match bs with
  | EmptyString => EmptyString
  | String a EmptyString =>
      String (enc (sx0 a)) (String (enc (sx1 a zero)) (String pad (String pad EmptyString)))
  | String a (String b EmptyString) =>
      String (enc (sx0 a)) (String (enc (sx1 a b))
        (String (enc (sx2 b zero)) (String pad EmptyString)))
  | String a (String b (String c rest)) =>
      String (enc (sx0 a)) (String (enc (sx1 a b))
        (String (enc (sx2 b c)) (String (enc (sx3 c)) (b64encode rest))))
  end.

(** [base64.b64decode] with its default [validate=False], which is
    binascii.a2b_base64 in its lenient mode: characters outside the
    alphabet are passed over, a complete run of padding ends the input,
    and input that stops inside a group is an error (binascii.Error,
    here [None]).  [quad_pos] is the position in the group of four,
    [leftchar] the bits not yet written, [pads] the padding seen since
    the last data character. *)
Fixpoint a2b (s : string) (quad_pos : nat) (leftchar : N) (pads : nat) : option string :=
  match s with
  | EmptyString => if Nat.eqb quad_pos 0 then Some EmptyString else None
  | String ch s' =>
      if Ascii.eqb ch pad then
        if Nat.leb 2 quad_pos then
          if Nat.leb 4 (quad_pos + S pads) then Some EmptyString
          else a2b s' quad_pos leftchar (S pads)
        else a2b s' quad_pos leftchar pads
      else
        match dec ch with
        | None => a2b s' quad_pos leftchar pads
        | Some v =>
            match quad_pos with
            | 0 => a2b s' 1 v 0
            | 1 => String (ascii_of_N (N.lor (N.shiftl leftchar 2) (N.shiftr v 4)))
                     <$> a2b s' 2 (N.land v 15) 0
            | 2 => String (ascii_of_N (N.lor (N.shiftl leftchar 4) (N.shiftr v 2)))
                     <$> a2b s' 3 (N.land v 3) 0
            | _ => String (ascii_of_N (N.lor (N.shiftl leftchar 6) v))
                     <$> a2b s' 0 0%N 0
            end
        end
  end.

Definition b64decode (s : string) : option string := a2b s 0 0%N 0.

End Base64.

Module Utf8.

Definition in_range (lo hi : N) (c : ascii) : bool :=
  (lo <=? N_of_ascii c)%N && (N_of_ascii c <=? hi)%N.

(** The well-formed byte sequences of UTF-8 (Unicode, table 3-7): no
    overlong form, no surrogate, nothing above U+10FFFF.  [need] holds
    the ranges of the continuation bytes still expected. *)
Fixpoint valid_go (need : list (N * N)) (s : string) : bool :=
  match s with
  | EmptyString => match need with [] => true | _ => false end
  | String c s' =>
      match need with
      | (lo, hi) :: need' => in_range lo hi c && valid_go need' s'
      | [] =>
          if in_range 0x00 0x7F c then valid_go [] s'
          else if in_range 0xC2 0xDF c then valid_go [(0x80, 0xBF)] s'
          else if in_range 0xE0 0xE0 c then valid_go [(0xA0, 0xBF); (0x80, 0xBF)] s'
          else if in_range 0xE1 0xEC c then valid_go [(0x80, 0xBF); (0x80, 0xBF)] s'
          else if in_range 0xED 0xED c then valid_go [(0x80, 0x9F); (0x80, 0xBF)] s'
          else if in_range 0xEE 0xEF c then valid_go [(0x80, 0xBF); (0x80, 0xBF)] s'
          else if in_range 0xF0 0xF0 c
          then valid_go [(0x90, 0xBF); (0x80, 0xBF); (0x80, 0xBF)] s'
          else if in_range 0xF1 0xF3 c
          then valid_go [(0x80, 0xBF); (0x80, 0xBF); (0x80, 0xBF)] s'
          else if in_range 0xF4 0xF4 c
          then valid_go [(0x80, 0x8F); (0x80, 0xBF); (0x80, 0xBF)] s'
          else false
      end
  end%N.

(** The byte strings that are the encoding of a str. *)
Definition valid (s : string) : bool := valid_go [] s.

(** [s.encode("utf-8")]: a str is represented by these bytes already. *)
Definition encode (s : string) : string := s.

(** [bs.decode("utf-8")]: UnicodeDecodeError ([None]) on ill-formed bytes. *)
Definition decode (bs : string) : option string :=
  if valid bs then Some bs else None.

End Utf8.

(** apis.py:112 *)
Definition b64encode_s (s : string) : option string :=
  Utf8.decode (Base64.b64encode (Utf8.encode s)).

(** apis.py:116 *)
Definition b64decode_s (s : string) : option string :=
  bs ← Base64.b64decode (Utf8.encode s); Utf8.decode bs.

(** ** The data model (tensorcircuit/cloud/abstraction.py) *)

(** Modelled from the spec: the class Provider of abstraction.py.  A
    provider is identified by its canonical name (section 3). *)
Module Provider.
Record t : Type := mk { name : string }.
End Provider.

(** Modelled from the spec: the class Device of abstraction.py, a name and
    the provider it belongs to (section 3). *)
Module Device.
Record t : Type := mk { name : string; provider : Provider.t }.
End Device.

(** Modelled from the spec: the class Task of abstraction.py, an id and
    the device it is bound to, if any (sections 3 and 4.5). *)
Module Task.
Record t : Type := mk { id_ : string; device : option Device.t }.
End Task.

Global Instance provider_eq_dec : EqDecision Provider.t.
Proof. solve_decision. Defined.

Global Instance device_eq_dec : EqDecision Device.t.
Proof. solve_decision. Defined.

Global Instance task_eq_dec : EqDecision Task.t.
Proof. solve_decision. Defined.

(** What an argument annotated [Union[str, Provider]], [Union[str, Device]]
    or [Union[str, Task]] can hold at run time.  [Optional[...]] is
    [option pyval]. *)
Inductive pyval : Type :=
| VStr (s : string)
| VProvider (p : Provider.t)
| VDevice (d : Device.t)
| VTask (t : Task.t).

(** The provider arguments that respect their annotation. *)
Definition is_provider_arg (v : pyval) : bool :=
  match v with VStr _ | VProvider _ => true | _ => false end.

(** Modelled from the spec: the separator [sep] of abstraction.py between
    provider and device (section 6; the keys quoted at apis.py:191 and the
    default device of apis.py:61 are written with it). *)
Definition sep : string := "::".

(** ** Exceptions *)

Inductive exn : Type :=
| UnsupportedProvider (name : string)
    (** ValueError("Unsupported provider: %s" % name) *)
| AmbiguousDeviceSpecification
    (** ValueError("Please specify the device apart from the provider") *)
| ProviderDeviceMismatch
    (** the provider written in a device string is not the one passed *)
| UnknownProviderFormat
    (** [Provider.from_name] on something that is no str and no Provider *)
| UnknownDeviceFormat
    (** [Device.from_name] on something that is no str and no Device *)
| TokenStoreCorrupt
    (** the persisted file is no JSON object of base64 strings
        (json.JSONDecodeError, binascii.Error, UnicodeDecodeError) *)
| UnicodeDecodeError
    (** bytes that are no UTF-8 handed to [.decode("utf-8")] *)
| AttributeError
    (** an attribute or method the object does not have *)
| NameError.
    (** a module global read before it is bound *)

Inductive result (A : Type) : Type :=
| Ok (a : A)
| Raise (e : exn).

Arguments Ok {A} a.
Arguments Raise {A} e.

(** ** Process state *)

(** The two attributes of a module object that this layer sets. *)
Record namespace : Type := mkNamespace {
  default_provider : option Provider.t;
  default_device : option Device.t
}.

Definition empty_namespace : namespace := mkNamespace None None.

(** The file ~/.tc.auth.json: a JSON object from credential key to
    base64 text, or anything else. *)
Inductive file_content : Type :=
| Malformed
| JsonObject (d : gmap string string).

Record state : Type := mkState {
  sys_modules : gmap string namespace;  (** [sys.modules], by module name *)
  saved_token : gmap string string;     (** the global [saved_token] of apis.py *)
  authfile : option file_content        (** [None]: the file does not exist *)
}.

(** apis.py:16 *)
Definition package_name : string := "tensorcircuit".

(** [__name__] of apis.py, the key of [thismodule] in [sys.modules]. *)
Definition this_module : string := "tensorcircuit.cloud.apis".

(** ** Calls: state and exceptions *)

Definition M (A : Type) : Type := state → result A * state.

Definition ret {A} (a : A) : M A := λ st, (Ok a, st).

Definition raise {A} (e : exn) : M A := λ st, (Raise e, st).

Definition bind {A B} (m : M A) (k : A → M B) : M B :=
  λ st, match m st with
        | (Ok a, st') => k a st'
        | (Raise e, st') => (Raise e, st')
        end.

Notation "'let*' x ':=' m 'in' k" := (bind m (λ x, k))
  (at level 10, x name, m at level 100, k at level 200, only parsing).

Definition lift {A} (r : result A) : M A := λ st, (r, st).

Definition lift_option {A} (e : exn) (o : option A) : M A :=
  λ st, (match o with Some a => Ok a | None => Raise e end, st).

(** Reading a global of apis.py. *)
Definition read_global {A} (attr : namespace → option A) : M A :=
  λ st, match sys_modules st !! this_module ≫= attr with
        | Some a => (Ok a, st)
        | None => (Raise NameError, st)
        end.

(** A module-level assignment of apis.py. *)
Definition assign_global (upd : namespace → namespace) : M unit :=
  λ st, (Ok tt,
         mkState (<[this_module := upd (default empty_namespace (sys_modules st !! this_module))]>
                    (sys_modules st))
                 (saved_token st) (authfile st)).

(** [for module in sys.modules: if module.startswith(package_name):
    setattr(sys.modules[module], attr, value)] *)
Definition setattr_package (upd : namespace → namespace) : M unit :=
  λ st, (Ok tt,
         mkState (map_imap (λ module ns,
                     Some (if Str.startswith module package_name then upd ns else ns))
                    (sys_modules st))
                 (saved_token st) (authfile st)).

Definition set_default_provider (p : Provider.t) (ns : namespace) : namespace :=
  mkNamespace (Some p) (default_device ns).

Definition set_default_device (d : Device.t) (ns : namespace) : namespace :=
  mkNamespace (default_provider ns) (Some d).

Definition read_saved_token : M (gmap string string) :=
  λ st, (Ok (saved_token st), st).

Definition write_saved_token (m : gmap string string) : M unit :=
  λ st, (Ok tt, mkState (sys_modules st) m (authfile st)).

(** [os.path.exists(authpath)] and, if so, the content read. *)
Definition read_authfile : M (option file_content) :=
  λ st, (Ok (authfile st), st).

(** [open(authpath, "w")] and [json.dump]: the file is replaced. *)
Definition write_authfile (d : gmap string string) : M unit :=
  λ st, (Ok tt, mkState (sys_modules st) (saved_token st) (Some (JsonObject d))).

(** [{k: f(v) for k, v in d.items()}] for an [f] that can raise: the
    comprehension raises as soon as one value does. *)
Definition dict_comprehension (f : string → option string) (d : gmap string string)
  : option (gmap string string) :=
  list_to_map <$> mapM (λ kv : string * string, v ← f kv.2; Some (kv.1, v)) (map_to_list d).

(** [for k, v in d.items(): if k == target: return v] and [return None]
    after the loop. *)
Fixpoint first_match (target : string) (items : list (string * string)) : option string :=
  match items with
  | [] => None
  | (k, v) :: rest => if String.eqb k target then Some v else first_match target rest
  end.

(** ** The entry points (tensorcircuit/cloud/apis.py) *)

(** The backends tencent and local are outside this layer: an operation
    that reaches one is modelled by the call it forwards. *)
Inductive backend_call (kwargs : Type) : Type :=
| tencent_list_devices (token : option string)
| local_list_devices (token : option string)
| tencent_list_properties (device : Device.t) (token : option string)
| tencent_get_task_details (task : Task.t) (device : Device.t) (token : option string)
| local_get_task_details (task : Task.t) (device : Device.t) (token : option string)
| tencent_submit_task (device : pyval) (token : option string) (task_kws : kwargs)
| local_submit_task (device : pyval) (token : option string) (task_kws : kwargs)
| tencent_resubmit_task (task : Task.t) (token : option string)
| tencent_remove_task (task : Task.t) (token : option string)
| tencent_list_tasks (device : option Device.t) (token : option string) (filter_kws : kwargs)
| local_list_tasks (device : option Device.t) (token : option string) (filter_kws : kwargs).

Arguments tencent_list_devices {kwargs} token.
Arguments local_list_devices {kwargs} token.
Arguments tencent_list_properties {kwargs} device token.
Arguments tencent_get_task_details {kwargs} task device token.
Arguments local_get_task_details {kwargs} task device token.
Arguments tencent_submit_task {kwargs} device token task_kws.
Arguments local_submit_task {kwargs} device token task_kws.
Arguments tencent_resubmit_task {kwargs} task token.
Arguments tencent_remove_task {kwargs} task token.
Arguments tencent_list_tasks {kwargs} device token filter_kws.
Arguments local_list_tasks {kwargs} device token filter_kws.

(** [provider, device = None, provider] under
    [if provider is not None and device is None] (apis.py:82, 215, 236) *)
Definition swap_provider_device (provider device : option pyval)
  : option pyval * option pyval :=
  match provider, device with
  | Some _, None => (None, provider)
  | _, _ => (provider, device)
  end.

(** [x.name]: providers and devices have the attribute. *)
Definition attr_name (x : pyval) : M string :=
  match x with
  | VProvider p => ret (Provider.name p)
  | VDevice d => ret (Device.name d)
  | _ => raise AttributeError
  end.

(** [x.provider]: devices have the attribute. *)
Definition attr_provider (x : pyval) : M Provider.t :=
  match x with
  | VDevice d => ret (Device.provider d)
  | _ => raise AttributeError
  end.

(** [x.device]: tasks have the attribute. *)
Definition attr_device (x : pyval) : M (option Device.t) :=
  match x with
  | VTask t => ret (Task.device t)
  | _ => raise AttributeError
  end.

(** Modelled from the spec: [Task(id_)] and [Task(id_, device=device)] of
    abstraction.py build the handle from a bare id and an optional device
    (section 4.5). *)
Definition Task_init (id_ : string) (device : option Device.t) : Task.t :=
  Task.mk id_ device.

(** The credential key of a provider, or of a device of a provider: what
    [provider.name + sep] and [provider.name + sep + device.name] evaluate
    to (apis.py:154, 156 and 181-183). *)
Definition token_key (provider : Provider.t) (device : option Device.t) : string :=
  match device with
  | None => Provider.name provider ++ sep
  | Some d => (Provider.name provider ++ sep) ++ Device.name d
  end.

(** apis.py:21 *)
Definition avail_providers : list string := ["tencent"; "local"].

(** [[f(x) for x in l]] for an [f] that reads or writes the process: the
    calls are made from left to right and the first exception ends the
    comprehension. *)
Fixpoint for_each {A B} (f : A → M B) (l : list A) : M (list B) :=
  match l with
  | [] => ret []
  | x :: l' => let* y := f x in let* ys := for_each f l' in ret (y :: ys)
  end.

Section Apis.

(** Modelled from the spec: the canonical form [Provider.from_name] gives a
    name (section 4.1, "canonicalizes the string"); abstraction.py is not
    under src/ and the spec does not fix the form, so it is a parameter. *)
Variable canon : string → string.

(** Modelled from the spec: the separator [sep2] of abstraction.py between
    device and task id (section 6); the spec gives no value for it. *)
Variable sep2 : string.

(** The keyword arguments handed on to a backend untouched. *)
Variable kwargs : Type.

(** Modelled from the spec: [Provider.from_name] of abstraction.py
    (resolveProvider, section 4.1): a Provider is returned as it is, a
    string is made canonical, anything else is UnknownProviderFormat. *)
Definition Provider_from_name (provider : pyval) : result Provider.t :=
  match provider with
  | VProvider p => Ok p
  | VStr s => Ok (Provider.mk (canon s))
  | _ => Raise UnknownProviderFormat
  end.

(** apis.py:34 *)
Definition set_provider (provider : option pyval) (set_global : bool) : M Provider.t :=
  let* provider := match provider with
                   | None => let* p := read_global default_provider in ret (VProvider p)
                   | Some v => ret v
                   end in
  let* provider := lift (Provider_from_name provider) in
  let* _ := (if set_global then setattr_package (set_default_provider provider) else ret tt) in
  ret provider.

(** apis.py:59, [partial(set_provider, set_global=False)] *)
Definition get_provider (provider : option pyval) : M Provider.t :=
  set_provider provider false.

(** apis.py:24, [[get_provider(s) for s in avail_providers]] *)
Definition list_providers : M (list Provider.t) :=
  for_each (λ s, get_provider (Some (VStr s))) avail_providers.

(** Modelled from the spec: the constructor [Device(name, provider)] of
    abstraction.py (resolveDevice, section 4.1).  A name that contains
    [sep] is split: the prefix is the provider, the part after it the
    device name, and a provider passed along must be the same one,
    ProviderDeviceMismatch otherwise.  A name without [sep] gets the
    provider passed along, or the default provider. *)
Definition Device_init (name : string) (provider : option pyval) : M Device.t :=
  match Str.split name sep with
  | prefix :: short :: _ =>
      let* p := lift (Provider_from_name (VStr prefix)) in
      match provider with
      | None => ret (Device.mk short p)
      | Some v =>
          let* q := lift (Provider_from_name v) in
          if decide (q = p) then ret (Device.mk short p)
          else raise ProviderDeviceMismatch
      end
  | _ =>
      let* p := match provider with
                | Some v => lift (Provider_from_name v)
                | None => get_provider None
                end in
      ret (Device.mk name p)
  end.

(** Modelled from the spec: [Device.from_name] of abstraction.py
    (resolveDevice, section 4.1): a Device is returned as it is, a string
    goes through the constructor.  Every call in apis.py passes a device
    that is not None. *)
Definition Device_from_name (device : pyval) (provider : option pyval) : M Device.t :=
  match device with
  | VDevice d => ret d
  | VStr s => Device_init s provider
  | _ => raise UnknownDeviceFormat
  end.

(** apis.py:64.  The exchange of line 83 comes first, so the test of
    line 84 is made on the exchanged values. *)
Definition set_device (provider device : option pyval) (set_global : bool) : M Device.t :=
  let '(provider, device) := swap_provider_device provider device in
  let* _ := match device, provider with
            | None, Some _ => raise AmbiguousDeviceSpecification
            | _, _ => ret tt
            end in
  let* device := match device with
                 | None => let* d := read_global default_device in ret (VDevice d)
                 | Some v => ret v
                 end in
  let* device := match device with
                 | VStr s =>
                     if Nat.ltb 1 (length (Str.split s sep)) then Device_init s provider
                     else
                       let* provider := match provider with
                                        | None => let* p := get_provider None in ret (VProvider p)
                                        | Some v => ret v
                                        end in
                       Device_init s (Some provider)
                 | _ =>
                     let* provider := match provider with
                                      | None => let* p := get_provider None in ret (VProvider p)
                                      | Some v => ret v
                                      end in
                     Device_from_name device (Some provider)
                 end in
  let* _ := (if set_global then setattr_package (set_default_device device) else ret tt) in
  ret device.

(** apis.py:109, [partial(set_device, set_global=False)] *)
Definition get_device (provider device : option pyval) : M Device.t :=
  set_device provider device false.

(** apis.py:123.  The test [provider is None] of line 152 comes after
    line 134 has made [provider] a Provider, and never holds. *)
Definition set_token (token : option string) (provider device : option pyval)
    (cached : bool) : M (gmap string string) :=
  let* provider := match provider with
                   | None => let* p := read_global default_provider in ret (VProvider p)
                   | Some v => ret v
                   end in
  let* provider := lift (Provider_from_name provider) in
  let* device := match device with
                 | Some v => let* d := Device_from_name v (Some (VProvider provider)) in ret (Some d)
                 | None => ret None
                 end in
  let* _ :=
  match token with
  | None =>
      let* file := read_authfile in
      let* file_token := match cached, file with
                         | true, Some content =>
                             match content with
                             | JsonObject file_token =>
                                 lift_option TokenStoreCorrupt
                                   (dict_comprehension b64decode_s file_token)
                             | Malformed => raise TokenStoreCorrupt
                             end
                         | _, _ => ret ∅
                         end in
      let* saved := read_saved_token in
      write_saved_token (saved ∪ file_token)
  | Some token =>
      let added_token : gmap string string :=
        match device with
        | None => {[ (Provider.name provider ++ sep) := token ]}
        | Some d => {[ ((Provider.name provider ++ sep) ++ Device.name d) := token ]}
        end in
      let* saved := read_saved_token in
      write_saved_token (added_token ∪ saved)
  end in
  let* _ :=
  (if cached then
     let* saved := read_saved_token in
     let* file_token := lift_option UnicodeDecodeError (dict_comprehension b64encode_s saved) in
     write_authfile file_token
   else ret tt) in
  read_saved_token.

(** apis.py:172 *)
Definition get_token (provider device : option pyval) : M (option string) :=
  let* provider := match provider with
                   | None => let* p := read_global default_provider in ret (VProvider p)
                   | Some v => ret v
                   end in
  let* provider := lift (Provider_from_name provider) in
  let* device := match device with
                 | Some v => let* d := Device_from_name v (Some (VProvider provider)) in ret (Some d)
                 | None => ret None
                 end in
  let target := Provider.name provider ++ sep in
  let target := match device with
                | Some d => target ++ Device.name d
                | None => target
                end in
  let* saved := read_saved_token in
  ret (first_match target (map_to_list saved)).

(** The provider and the device that [set_token] and [get_token] settle on
    before they touch the tokens (apis.py:132-136 and 176-180). *)
Definition token_scope (provider device : option pyval)
  : M (Provider.t * option Device.t) :=
  let* provider := match provider with
                   | None => let* p := read_global default_provider in ret (VProvider p)
                   | Some v => ret v
                   end in
  let* provider := lift (Provider_from_name provider) in
  let* device := match device with
                 | Some v =>
                     let* d := Device_from_name v (Some (VProvider provider)) in ret (Some d)
                 | None => ret None
                 end in
  ret (provider, device).

(** Modelled from the spec: [Provider.get_token] of abstraction.py, the
    token of the provider alone (section 4.4). *)
Definition Provider_get_token (p : Provider.t) : M (option string) :=
  get_token (Some (VProvider p)) None.

(** Modelled from the spec: [Device.get_token] of abstraction.py, the token
    scoped to the device and its provider (section 4.4). *)
Definition Device_get_token (d : Device.t) : M (option string) :=
  get_token (Some (VProvider (Device.provider d))) (Some (VDevice d)).

(** [x.get_token()]: providers and devices have the method. *)
Definition call_get_token (x : pyval) : M (option string) :=
  match x with
  | VProvider p => Provider_get_token p
  | VDevice d => Device_get_token d
  | _ => raise AttributeError
  end.

(** Modelled from the spec: [Task.get_device] of abstraction.py, the device
    attached to the task, None if there is none (section 4.5). *)
Definition Task_get_device (t : Task.t) : option Device.t := Task.device t.

(** [x.get_device()]: tasks have the method. *)
Definition call_get_device (x : option pyval) : M (option Device.t) :=
  match x with
  | Some (VTask t) => ret (Task_get_device t)
  | _ => raise AttributeError
  end.

(** apis.py:194 *)
Definition list_devices (provider : option pyval) (token : option string)
  : M (backend_call kwargs) :=
  let* provider := match provider with
                   | None => let* p := read_global default_provider in ret (VProvider p)
                   | Some v => ret v
                   end in
  let* provider := lift (Provider_from_name provider) in
  let* token := match token with
                | None => Provider_get_token provider
                | Some _ => ret token
                end in
  if String.eqb (Provider.name provider) "tencent" then ret (tencent_list_devices token)
  else if String.eqb (Provider.name provider) "local" then ret (local_list_devices token)
  else raise (UnsupportedProvider (Provider.name provider)).

(** apis.py:210 *)
Definition list_properties (provider device : option pyval) (token : option string)
  : M (backend_call kwargs) :=
  let '(provider, device) := swap_provider_device provider device in
  let* device := match device with
                 | None => let* d := read_global default_device in ret (VDevice d)
                 | Some v => ret v
                 end in
  let* device := Device_from_name device provider in
  let provider := match provider with
                  | None => VProvider (Device.provider device)
                  | Some v => v
                  end in
  let* token := match token with
                | None => Device_get_token device
                | Some _ => ret token
                end in
  let* name := attr_name provider in
  if String.eqb name "tencent" then ret (tencent_list_properties device token)
  else raise (UnsupportedProvider name).

(** apis.py:231 *)
Definition get_task (taskid : string) (provider device : option pyval) : M Task.t :=
  let '(provider, device) := swap_provider_device provider device in
  match device with
  | Some v =>
      let* device := Device_from_name v provider in
      ret (Task_init taskid (Some device))
  | None =>
      if Nat.ltb 1 (length (Str.split taskid sep2)) then
        let* device := Device_init (nth 0 (Str.split taskid sep2) EmptyString) None in
        let taskid := nth 1 (Str.split taskid sep2) EmptyString in
        ret (Task_init taskid (Some device))
      else ret (Task_init taskid None)
  end.

(** apis.py:246 *)
Definition get_task_details (taskid : pyval) (token : option string)
  : M (backend_call kwargs) :=
  let task := match taskid with
              | VStr s => VTask (Task_init s None)
              | _ => taskid
              end in
  let* task_device := attr_device task in
  let* device := match task_device with
                 | Some d => ret d
                 | None => read_global default_device
                 end in
  let* token := match token with
                | None => Device_get_token device
                | Some _ => ret token
                end in
  let provider := Device.provider device in
  match task with
  | VTask t =>
      if String.eqb (Provider.name provider) "tencent"
      then ret (tencent_get_task_details t device token)
      else if String.eqb (Provider.name provider) "local"
      then ret (local_get_task_details t device token)
      else raise (UnsupportedProvider (Provider.name provider))
  | _ => raise AttributeError
  end.

(** apis.py:269 *)
Definition submit_task (provider device : option pyval) (token : option string)
    (task_kws : kwargs) : M (backend_call kwargs) :=
  let* device := match device with
                 | None => let* d := get_device None None in ret (VDevice d)
                 | Some v => ret v
                 end in
  let* pd := match device with
             | VStr s =>
                 if Nat.ltb 1 (length (Str.split s sep)) then
                   let* d := Device_init s provider in ret (provider, VDevice d)
                 else
                   let* provider := match provider with
                                    | None => let* p := get_provider None in ret (VProvider p)
                                    | Some v => ret v
                                    end in
                   let* d := Device_init s (Some provider) in ret (Some provider, VDevice d)
             | _ => ret (provider, device)
             end in
  let '(provider, device) := pd in
  let* provider := match provider with
                   | None => let* p := attr_provider device in ret (VProvider p)
                   | Some v => ret v
                   end in
  let* token := match token with
                | None => call_get_token device
                | Some _ => ret token
                end in
  let* name := attr_name provider in
  if String.eqb name "tencent" then ret (tencent_submit_task device token task_kws)
  else if String.eqb name "local" then ret (local_submit_task device token task_kws)
  else raise (UnsupportedProvider name).

(** apis.py:298 *)
Definition resubmit_task (task : option pyval) (token : option string)
  : M (backend_call kwargs) :=
  let task := match task with
              | Some (VStr s) => Some (VTask (Task_init s None))
              | _ => task
              end in
  let* device := call_get_device task in
  let* token := match token with
                | None =>
                    match device with
                    | Some d => Device_get_token d
                    | None => raise AttributeError
                    end
                | Some _ => ret token
                end in
  let* provider := match device with
                   | Some d => ret (Device.provider d)
                   | None => raise AttributeError
                   end in
  match task with
  | Some (VTask t) =>
      if String.eqb (Provider.name provider) "tencent"
      then ret (tencent_resubmit_task t token)
      else raise (UnsupportedProvider (Provider.name provider))
  | _ => raise AttributeError
  end.

(** apis.py:315 *)
Definition remove_task (task : option pyval) (token : option string)
  : M (backend_call kwargs) :=
  let task := match task with
              | Some (VStr s) => Some (VTask (Task_init s None))
              | _ => task
              end in
  let* device := call_get_device task in
  let* token := match token with
                | None =>
                    match device with
                    | Some d => Device_get_token d
                    | None => raise AttributeError
                    end
                | Some _ => ret token
                end in
  let* provider := match device with
                   | Some d => ret (Device.provider d)
                   | None => raise AttributeError
                   end in
  match task with
  | Some (VTask t) =>
      if String.eqb (Provider.name provider) "tencent"
      then ret (tencent_remove_task t token)
      else raise (UnsupportedProvider (Provider.name provider))
  | _ => raise AttributeError
  end.

(** apis.py:332 *)
Definition list_tasks (provider device : option pyval) (token : option string)
    (filter_kws : kwargs) : M (backend_call kwargs) :=
  let* provider := match provider with
                   | None => let* p := read_global default_provider in ret (VProvider p)
                   | Some v => ret v
                   end in
  let* provider := lift (Provider_from_name provider) in
  let* token := match token with
                | None => Provider_get_token provider
                | Some _ => ret token
                end in
  let* device := match device with
                 | Some v => let* d := Device_from_name v None in ret (Some d)
                 | None => ret None
                 end in
  if String.eqb (Provider.name provider) "tencent"
  then ret (tencent_list_tasks device token filter_kws)
  else if String.eqb (Provider.name provider) "local"
  then ret (local_list_tasks device token filter_kws)
  else raise (UnsupportedProvider (Provider.name provider)).

(** The statements apis.py runs when it is imported (lines 20, 58, 61,
    108, 120 and 169). *)
Definition module_body : M unit :=
  let* p := lift (Provider_from_name (VStr "tencent")) in
  let* _ := assign_global (set_default_provider p) in
  let* _ := set_provider None true in
  let* d := Device_from_name (VStr "tencent::simulator:tc") None in
  let* _ := assign_global (set_default_device d) in
  let* _ := set_device None None true in
  let* _ := write_saved_token ∅ in
  let* _ := set_token None None None true in
  ret tt.

(** [import tensorcircuit.cloud.apis]: the statements of the module run;
    when one of them raises, the import fails and the module is taken out
    of [sys.modules] again, so that no global of apis.py can be read.  What
    the statements have written elsewhere stays: the attributes set on the
    other modules of the package and the file. *)
Definition import_apis : M unit :=
  λ st, match module_body st with
        | (Ok a, st') => (Ok a, st')
        | (Raise e, st') =>
            (Raise e,
             mkState (delete this_module (sys_modules st')) (saved_token st') (authfile st'))
        end.

End Apis.

(** ** Predicates on calls *)

(** A call that leaves the process as it was. *)
Definition pure_call {A} (m : M A) : Prop := ∀ st, (m st).2 = st.

(** A call that never raises a given exception. *)
Definition never_raises {A} (e : exn) (m : M A) : Prop := ∀ st, (m st).1 ≠ Raise e.

(** A call whose answer depends on [sys.modules] alone. *)
Definition reads_modules {A} (m : M A) : Prop :=
  ∀ st1 st2, sys_modules st1 = sys_modules st2 → (m st1).1 = (m st2).1.

(** ** What an operation hands to a backend *)

(** The token: the one passed, else the one stored under [key]
    ([if token is None: token = ....get_token()]). *)
Definition token_or_stored (token : option string) (st : state) (key : string)
  : option string :=
  match token with
  | Some _ => token
  | None => saved_token st !! key
  end.

(** The chain [if provider.name == "tencent": ... elif provider.name ==
    "local": ... else: raise ValueError(...)] that ends [list_devices],
    [get_task_details], [submit_task] and [list_tasks]. *)
Definition by_backend {A} (name : string) (tencent local : A) : result A :=
  if String.eqb name "tencent" then Ok tencent
  else if String.eqb name "local" then Ok local
  else Raise (UnsupportedProvider name).

(** The chain of [list_properties], which has the tencent branch only. *)
Definition by_tencent {A} (name : string) (tencent : A) : result A :=
  if String.eqb name "tencent" then Ok tencent
  else Raise (UnsupportedProvider name).

(** ** A concrete process *)

(** A canonical form that leaves the name as it is written. *)
Definition canon_same (s : string) : string := s.

(** A task separator. *)
Definition sep2_tilde : string := "~~".

(** The interpreter before apis.py is imported: the package and the
    module are registered, next to modules of other packages; there is no
    persisted file. *)
Definition fresh_process : state :=
  mkState
    (list_to_map [("sys", empty_namespace);
                  ("tensorcircuit", empty_namespace);
                  ("tensorcircuit.cloud.apis", empty_namespace);
                  ("tensorcircuitx", empty_namespace);
                  ("numpy", empty_namespace)])
    ∅ None.

(** The process once apis.py is imported. *)
Definition booted : state := (import_apis canon_same fresh_process).2.

Definition tencent_provider : Provider.t := Provider.mk "tencent".

(** The process after [set_token("secret", "tencent")]: one token, under
    the key of the provider alone. *)
Definition with_provider_token : state :=
  (set_token canon_same (Some "secret") (Some (VStr "tencent")) None true booted).2.

(** A process with one token in memory and a file that holds another
    value for the same key and a token for a second key. *)
Definition memory_over_file : state :=
  mkState (sys_modules booted)
    {[ "tencent::" := "in-memory" ]}
    (Some (JsonObject (list_to_map [("tencent::", "b24tZGlzaw=="); ("local::", "bG9jYWwtdG9rZW4=")]))).

Definition local_provider : Provider.t := Provider.mk "local".

(** A device of each provider that has a backend. *)
Definition tencent_device : Device.t := Device.mk "simulator:tc" tencent_provider.

Definition local_device : Device.t := Device.mk "testing" local_provider.

(** The imported process, next to a file that is no JSON. *)
Definition corrupt_file : state :=
  mkState (sys_modules booted) (saved_token booted) (Some Malformed).

(** * Properties *)

(** ** Calls that leave the process as it was *)

Lemma pure_ret {A} (a : A) : pure_call (ret a).
Proof. intros st. reflexivity. Qed.

Lemma pure_raise {A} (e : exn) : pure_call (@raise A e).
Proof. intros st. reflexivity. Qed.

Lemma pure_lift {A} (r : result A) : pure_call (lift r).
Proof. intros st. reflexivity. Qed.

Lemma pure_lift_option {A} e (o : option A) : pure_call (lift_option e o).
Proof. intros st. reflexivity. Qed.

Lemma pure_bind {A B} (m : M A) (k : A → M B) :
  pure_call m → (∀ a, pure_call (k a)) → pure_call (bind m k).
Proof.
  intros Hm Hk st. unfold bind. specialize (Hm st).
  destruct (m st) as [[a|e] st']; simpl in *; subst; [apply Hk | reflexivity].
Qed.

Lemma pure_read_global {A} (attr : namespace → option A) : pure_call (read_global attr).
Proof. intros st. unfold read_global. destruct (_ ≫= _); reflexivity. Qed.

Lemma pure_read_saved_token : pure_call read_saved_token.
Proof. intros st. reflexivity. Qed.

Lemma pure_read_authfile : pure_call read_authfile.
Proof. intros st. reflexivity. Qed.

Lemma pure_attr_name x : pure_call (attr_name x).
Proof. destruct x; intros st; reflexivity. Qed.

Lemma pure_attr_provider x : pure_call (attr_provider x).
Proof. destruct x; intros st; reflexivity. Qed.

Lemma pure_attr_device x : pure_call (attr_device x).
Proof. destruct x; intros st; reflexivity. Qed.

Create HintDb frame discriminated.

#[export] Hint Resolve pure_ret pure_raise pure_lift pure_lift_option pure_read_global
  pure_read_saved_token pure_read_authfile pure_attr_name pure_attr_provider
  pure_attr_device : frame.

(** Split a goal [pure_call m] along the binds and the case analyses of [m]. *)
Ltac frame :=
  repeat first
    [ apply pure_bind; [| intros ?]
    | progress eauto with frame
    | match goal with
      | |- pure_call (match ?x with _ => _ end) => destruct x
      | |- pure_call (if ?b then _ else _) => destruct b
      | |- pure_call (let '(_, _) := ?x in _) => destruct x
      end ].

(** What a call answers, and what a call answers when it leaves the
    process as it was. *)
Lemma pure_call_eq {A} (m : M A) st : pure_call m → m st = ((m st).1, st).
Proof. intros H. specialize (H st). destruct (m st); simpl in *; congruence. Qed.

Lemma bind_ok {A B} (m : M A) (k : A → M B) st a st' :
  m st = (Ok a, st') → bind m k st = k a st'.
Proof. intros H. unfold bind. rewrite H. reflexivity. Qed.

Lemma bind_raise {A B} (m : M A) (k : A → M B) st e st' :
  m st = (Raise e, st') → bind m k st = (Raise e, st').
Proof. intros H. unfold bind. rewrite H. reflexivity. Qed.

Section Frame.

Variable canon : string → string.
Variable sep2 : string.
Variable kwargs : Type.

Lemma pure_get_provider provider : pure_call (get_provider canon provider).
Proof. unfold get_provider, set_provider. frame. Qed.

Lemma pure_Device_init name provider : pure_call (Device_init canon name provider).
Proof. unfold Device_init. pose proof pure_get_provider. frame. Qed.

Lemma pure_Device_from_name device provider :
  pure_call (Device_from_name canon device provider).
Proof. unfold Device_from_name. pose proof pure_Device_init. frame. Qed.

Lemma pure_get_device provider device : pure_call (get_device canon provider device).
Proof.
  unfold get_device, set_device.
  pose proof pure_get_provider. pose proof pure_Device_init.
  pose proof pure_Device_from_name. frame.
Qed.

Lemma pure_get_token provider device : pure_call (get_token canon provider device).
Proof. unfold get_token. pose proof pure_Device_from_name. frame. Qed.

Lemma pure_get_task taskid provider device :
  pure_call (get_task canon sep2 taskid provider device).
Proof.
  unfold get_task. pose proof pure_Device_init. pose proof pure_Device_from_name. frame.
Qed.

End Frame.

(** ** base64 and UTF-8: decoding undoes encoding *)

Section Base64Facts.

Import Base64.

Local Open Scope N_scope.

Lemma every_ascii (P : ascii → bool) :
  forallb P (List.map ascii_of_nat (seq 0 256)) = true → ∀ a, P a = true.
Proof.
  intros H a. rewrite forallb_forall in H. apply H.
  apply in_map_iff. exists (nat_of_ascii a). split.
  - apply ascii_nat_embedding.
  - apply in_seq. pose proof (nat_ascii_bounded a). lia.
Qed.

Lemma every_ascii_pair (P : ascii → ascii → bool) :
  forallb (λ a, forallb (P a) (List.map ascii_of_nat (seq 0 256)))
    (List.map ascii_of_nat (seq 0 256)) = true →
  ∀ a b, P a b = true.
Proof.
  intros H a b.
  apply (every_ascii (P a)). revert a. apply every_ascii. exact H.
Qed.

Lemma every_sextet (P : N → bool) :
  forallb P (List.map N.of_nat (seq 0 64)) = true → ∀ v, v < 64 → P v = true.
Proof.
  intros H v Hv. rewrite forallb_forall in H. apply H.
  apply in_map_iff. exists (N.to_nat v). split.
  - apply N2Nat.id.
  - apply in_seq. lia.
Qed.

(** The characters of the alphabet: decoded to their value, distinct from
    the padding, and ASCII. *)
Lemma enc_facts v :
  v < 64 →
  dec (enc v) = Some v
  ∧ Ascii.eqb (enc v) pad = false
  ∧ Utf8.in_range 0x00 0x7F (enc v) = true.
Proof.
  intros Hv.
  pose proof (every_sextet
    (λ v, match dec (enc v) with Some w => w =? v | None => false end
          && negb (Ascii.eqb (enc v) pad)
          && Utf8.in_range 0x00 0x7F (enc v))) as H.
  specialize (H ltac:(vm_compute; reflexivity) v Hv). cbv beta in H.
  apply andb_prop in H as [H H3]. apply andb_prop in H as [H1 H2].
  destruct (dec (enc v)) as [w|]; [|discriminate].
  apply N.eqb_eq in H1. subst w.
  apply negb_true_iff in H2. auto.
Qed.

Lemma sextet_bounds a b :
  sx0 a < 64 ∧ sx1 a b < 64 ∧ sx2 a b < 64 ∧ sx3 a < 64.
Proof.
  pose proof (every_ascii_pair
    (λ a b, (sx0 a <? 64) && (sx1 a b <? 64) && (sx2 a b <? 64) && (sx3 a <? 64))) as H.
  specialize (H ltac:(vm_compute; reflexivity) a b). cbv beta in H.
  repeat (apply andb_prop in H as [H ?]).
  repeat split; apply N.ltb_lt; assumption.
Qed.

(** The three bytes come back from the four groups. *)
Lemma regroup_first a b :
  ascii_of_N (N.lor (N.shiftl (sx0 a) 2) (N.shiftr (sx1 a b) 4)) = a
  ∧ N.land (sx1 a b) 15 = N.shiftr (byte b) 4.
Proof.
  pose proof (every_ascii_pair
    (λ a b, Ascii.eqb (ascii_of_N (N.lor (N.shiftl (sx0 a) 2) (N.shiftr (sx1 a b) 4))) a
            && (N.land (sx1 a b) 15 =? N.shiftr (byte b) 4))) as H.
  specialize (H ltac:(vm_compute; reflexivity) a b). cbv beta in H.
  apply andb_prop in H as [H1 H2].
  split; [apply Ascii.eqb_eq | apply N.eqb_eq]; assumption.
Qed.

Lemma regroup_rest b c :
  ascii_of_N (N.lor (N.shiftl (N.shiftr (byte b) 4) 4) (N.shiftr (sx2 b c) 2)) = b
  ∧ ascii_of_N (N.lor (N.shiftl (N.land (sx2 b c) 3) 6) (sx3 c)) = c.
Proof.
  pose proof (every_ascii_pair
    (λ b c, Ascii.eqb
              (ascii_of_N (N.lor (N.shiftl (N.shiftr (byte b) 4) 4) (N.shiftr (sx2 b c) 2))) b
            && Ascii.eqb
                 (ascii_of_N (N.lor (N.shiftl (N.land (sx2 b c) 3) 6) (sx3 c))) c)) as H.
  specialize (H ltac:(vm_compute; reflexivity) b c). cbv beta in H.
  apply andb_prop in H as [H1 H2].
  split; apply Ascii.eqb_eq; assumption.
Qed.

(** One step of the decoder on a character of the alphabet. *)
Lemma a2b_data v s quad_pos leftchar pads :
  v < 64 →
  a2b (String (enc v) s) quad_pos leftchar pads
  = match quad_pos with
    | 0%nat => a2b s 1 v 0
    | 1%nat => String (ascii_of_N (N.lor (N.shiftl leftchar 2) (N.shiftr v 4)))
                 <$> a2b s 2 (N.land v 15) 0
    | 2%nat => String (ascii_of_N (N.lor (N.shiftl leftchar 4) (N.shiftr v 2)))
                 <$> a2b s 3 (N.land v 3) 0
    | _ => String (ascii_of_N (N.lor (N.shiftl leftchar 6) v)) <$> a2b s 0 0 0
    end.
Proof.
  intros Hv. destruct (enc_facts v Hv) as (Hdec & Hpad & _).
  cbn [a2b]. rewrite Hpad, Hdec. reflexivity.
Qed.

Lemma string_ind3 (P : string → Prop) :
  P EmptyString →
  (∀ a, P (String a EmptyString)) →
  (∀ a b, P (String a (String b EmptyString))) →
  (∀ a b c r, P r → P (String a (String b (String c r)))) →
  ∀ s, P s.
Proof.
  intros H0 H1 H2 H3 s.
  enough (P s ∧ (∀ a, P (String a s)) ∧ (∀ a b, P (String a (String b s)))) by tauto.
  induction s as [|x s (IH0 & IH1 & IH2)]; auto.
Qed.

(** The first two characters of a group give the first byte. *)
Lemma a2b_first_byte a b s leftchar pads :
  a2b (String (enc (sx0 a)) (String (enc (sx1 a b)) s)) 0 leftchar pads
  = String a <$> a2b s 2 (N.shiftr (byte b) 4) 0.
Proof.
  destruct (sextet_bounds a b) as (B0 & B1 & _).
  destruct (regroup_first a b) as (R1 & R2).
  rewrite (a2b_data _ _ 0 _ _ B0), (a2b_data _ _ 1 _ _ B1), R1, R2. reflexivity.
Qed.

Lemma a2b_b64encode s : ∀ leftchar pads, a2b (b64encode s) 0 leftchar pads = Some s.
Proof.
  induction s as [|a|a b|a b c r IH] using string_ind3; intros leftchar pads.
  - reflexivity.
  - cbn [b64encode]. rewrite a2b_first_byte. reflexivity.
  - cbn [b64encode]. rewrite a2b_first_byte.
    destruct (sextet_bounds b zero) as (_ & _ & B2 & _).
    destruct (regroup_rest b zero) as (R1 & _).
    rewrite (a2b_data _ _ 2 _ _ B2), R1. reflexivity.
  - cbn [b64encode]. rewrite a2b_first_byte.
    destruct (sextet_bounds b c) as (_ & _ & B2 & _).
    destruct (sextet_bounds c c) as (_ & _ & _ & B3).
    destruct (regroup_rest b c) as (R1 & R2).
    rewrite (a2b_data _ _ 2 _ _ B2), R1, (a2b_data _ _ 3 _ _ B3), R2, IH.
    reflexivity.
Qed.

Lemma b64decode_b64encode s : b64decode (b64encode s) = Some s.
Proof. apply a2b_b64encode. Qed.

(** base64 text is ASCII, hence UTF-8. *)
Lemma valid_ascii c s :
  Utf8.in_range 0x00 0x7F c = true → Utf8.valid (String c s) = Utf8.valid s.
Proof. intros H. unfold Utf8.valid. cbn [Utf8.valid_go]. rewrite H. reflexivity. Qed.

Lemma valid_b64encode s : Utf8.valid (b64encode s) = true.
Proof.
  assert (Hp : Utf8.in_range 0x00 0x7F pad = true) by reflexivity.
  assert (He : ∀ v, v < 64 → Utf8.in_range 0x00 0x7F (enc v) = true)
    by (intros v Hv; apply (enc_facts v Hv)).
  induction s as [|a|a b|a b c r IH] using string_ind3; [reflexivity|..];
    cbn [b64encode];
    repeat first
      [ rewrite (valid_ascii pad) by exact Hp
      | rewrite (valid_ascii (enc _))
          by (apply He;
              first [ apply (sextet_bounds _ zero) | apply (sextet_bounds _ _) ]) ];
    first [reflexivity | exact IH].
Qed.

End Base64Facts.

Lemma b64encode_s_total s : b64encode_s s = Some (Base64.b64encode s).
Proof.
  unfold b64encode_s, Utf8.decode, Utf8.encode. rewrite valid_b64encode. reflexivity.
Qed.

(** [b64decode_s] undoes [b64encode_s] on every str. *)
Lemma b64decode_s_b64encode s :
  Utf8.valid s = true → b64decode_s (Base64.b64encode s) = Some s.
Proof.
  intros H. unfold b64decode_s, Utf8.encode. rewrite b64decode_b64encode. simpl.
  unfold Utf8.decode. rewrite H. reflexivity.
Qed.

(** What [b64decode_s] answers is a str. *)
Lemma b64decode_s_valid s r : b64decode_s s = Some r → Utf8.valid r = true.
Proof.
  unfold b64decode_s, Utf8.decode. destruct (Base64.b64decode _) as [bs|]; [|discriminate].
  simpl. destruct (Utf8.valid bs) eqn:E; [|discriminate]. intros [= <-]. exact E.
Qed.

(** ** Splitting strings *)

Lemma append_cons (c : ascii) (a b : string) : String c a ++ b = String c (a ++ b).
Proof. reflexivity. Qed.

Lemma append_nil (b : string) : EmptyString ++ b = b.
Proof. reflexivity. Qed.

Lemma append_assoc (a b c : string) : (a ++ b) ++ c = a ++ b ++ c.
Proof.
  induction a as [|x a IH]; [reflexivity|].
  rewrite !append_cons, IH. reflexivity.
Qed.

Lemma length_append (s r : string) :
  String.length (s ++ r) = String.length s + String.length r.
Proof.
  induction s as [|c s IH]; [reflexivity|].
  rewrite append_cons. cbn [String.length]. rewrite IH. reflexivity.
Qed.

Lemma prefix_nil (s : string) : String.prefix EmptyString s = true.
Proof. destruct s; reflexivity. Qed.

Lemma prefix_append (s r : string) : String.prefix s (s ++ r) = true.
Proof.
  induction s as [|c s IH]; [apply prefix_nil|].
  rewrite append_cons. cbn [String.prefix].
  destruct (ascii_dec c c); [exact IH | contradiction].
Qed.

(** Whether [s] starts a string is settled by the first [length s]
    characters. *)
Lemma prefix_append_long (s x r : string) :
  (String.length s ≤ String.length x)%nat →
  String.prefix s (x ++ r) = String.prefix s x.
Proof.
  revert x. induction s as [|c s IH]; intros x Hlen; [rewrite !prefix_nil; reflexivity|].
  destruct x as [|c' x]; cbn [String.length] in Hlen; [lia|].
  rewrite append_cons. cbn [String.prefix].
  destruct (ascii_dec c c'); [apply IH; lia | reflexivity].
Qed.

(** The characters of a matched separator are passed over. *)
Lemma split_go_skip (sep x r : string) :
  Str.split_go sep (String.length x) (x ++ r) = Str.split_go sep 0 r.
Proof. induction x as [|c x IH]; [reflexivity | exact IH]. Qed.

(** A string in which the separator does not occur is one segment. *)
Lemma split_absent (s sep : string) : Str.find sep s = None → Str.split s sep = [s].
Proof.
  unfold Str.split. induction s as [|c s IH]; intros H.
  - reflexivity.
  - cbn [Str.find] in H. cbn [Str.split_go].
    destruct (String.prefix sep (String c s)); [discriminate|].
    destruct (Str.find sep s); [discriminate|]. rewrite IH; reflexivity.
Qed.

(** A string cut at the leftmost occurrence of the separator. *)
Lemma split_first (l sep r : string) :
  sep ≠ EmptyString →
  Str.find sep (l ++ sep) = Some (String.length l) →
  Str.split (l ++ sep ++ r) sep = l :: Str.split r sep.
Proof.
  intros Hsep. unfold Str.split. induction l as [|c l IH]; intros H.
  - destruct sep as [|c sep]; [contradiction|].
    rewrite append_nil, append_cons. cbn [Str.split_go].
    rewrite <- append_cons, prefix_append. f_equal.
    replace (String.length (String c sep) - 1) with (String.length sep)
      by (cbn [String.length]; lia).
    apply split_go_skip.
  - rewrite append_cons in H. rewrite append_cons.
    cbn [Str.find] in H. cbn [Str.split_go].
    assert (Hp : String.prefix sep (String c (l ++ sep ++ r))
                 = String.prefix sep (String c (l ++ sep))).
    { rewrite <- append_assoc, <- append_cons.
      apply prefix_append_long. cbn [String.length]. rewrite length_append. lia. }
    rewrite Hp. destruct (String.prefix sep (String c (l ++ sep))); [discriminate|].
    destruct (Str.find sep (l ++ sep)) as [n|]; [|discriminate].
    injection H as ->. rewrite IH; reflexivity.
Qed.

(** ** The default context *)

Section DefaultContext.

Variable canon : string → string.
Variable kwargs : Type.

Lemma setattr_package_ok upd st : (setattr_package upd st).1 = Ok tt.
Proof. reflexivity. Qed.

(** Two continuations that answer alike give binds that answer alike. *)
Lemma bind_answer_ext {A B} (m : M A) (k1 k2 : A → M B) st :
  (∀ a st', (k1 a st').1 = (k2 a st').1) → (bind m k1 st).1 = (bind m k2 st).1.
Proof. intros H. unfold bind. destruct (m st) as [[a|e] st']; [apply H | reflexivity]. Qed.

(** C10: the read-only accessors, [set_provider] and [set_device] called
    with [set_global=False] (that is [get_provider] and [get_device]),
    leave the whole process state as it was, so the default provider, the
    default device and the in-memory tokens are unchanged; and they answer
    what the setting call answers. *)
Theorem accessors_do_not_mutate (provider device : option pyval) (st : state) :
  (set_provider canon provider false st).2 = st
  ∧ (set_device canon provider device false st).2 = st
  ∧ (get_provider canon provider st).2 = st
  ∧ (get_device canon provider device st).2 = st
  ∧ (set_provider canon provider false st).1 = (set_provider canon provider true st).1
  ∧ (set_device canon provider device false st).1 = (set_device canon provider device true st).1.
Proof.
  repeat split.
  - apply (pure_get_provider canon provider).
  - apply (pure_get_device canon provider device).
  - apply pure_get_provider.
  - apply pure_get_device.
  - unfold set_provider.
    do 2 (apply bind_answer_ext; intros ? ?). reflexivity.
  - unfold set_device. destruct (swap_provider_device provider device) as [p d].
    do 3 (apply bind_answer_ext; intros ? ?). reflexivity.
Qed.

Lemma lookup_setattr_package upd st module :
  sys_modules (setattr_package upd st).2 !! module
  = (λ ns, if Str.startswith module package_name then upd ns else ns)
      <$> sys_modules st !! module.
Proof.
  unfold setattr_package. simpl. rewrite map_lookup_imap.
  destruct (sys_modules st !! module); reflexivity.
Qed.

(** Where the default provider is bound, an omitted provider is the
    default one. *)
Lemma omitted_provider_is_default {B} (k : pyval → M B) st p :
  read_global default_provider st = (Ok p, st) →
  bind (bind (read_global default_provider) (λ p, ret (VProvider p))) k st
  = bind (ret (VProvider p)) k st.
Proof. intros H. unfold bind at 1 2. rewrite H. reflexivity. Qed.

Lemma bind_ret {A B} (a : A) (k : A → M B) st : bind (ret a) k st = k a st.
Proof. reflexivity. Qed.

(** Two calls that start alike and go on alike end alike. *)
Lemma bind_same_start {A B} (m1 m2 : M A) (k : A → M B) st :
  m1 st = m2 st → bind m1 k st = bind m2 k st.
Proof. intros H. unfold bind. rewrite H. reflexivity. Qed.

End DefaultContext.

(** ** Resolution of devices *)

Lemma never_raises_ret {A} e (a : A) : never_raises e (ret a).
Proof. intros st. discriminate. Qed.

Lemma never_raises_raise {A} e e' : e' ≠ e → never_raises e (@raise A e').
Proof. intros H st. simpl. congruence. Qed.

Lemma never_raises_bind {A B} e (m : M A) (k : A → M B) :
  never_raises e m → (∀ a, never_raises e (k a)) → never_raises e (bind m k).
Proof.
  intros Hm Hk st. unfold bind. specialize (Hm st).
  destruct (m st) as [[a|e'] st']; simpl in *; [apply Hk | congruence].
Qed.

Lemma never_raises_read_global {A} e (attr : namespace → option A) :
  e ≠ NameError → never_raises e (read_global attr).
Proof. intros H st. unfold read_global. destruct (_ ≫= _); simpl; congruence. Qed.

Lemma never_raises_setattr_package e upd : never_raises e (setattr_package upd).
Proof. intros st. discriminate. Qed.

Section Devices.

Variable canon : string → string.
Variable kwargs : Type.

Lemma never_raises_Provider_from_name e v :
  e ≠ UnknownProviderFormat → never_raises e (lift (Provider_from_name canon v)).
Proof. intros H st. destruct v; simpl; congruence. Qed.

(** Break a goal [never_raises e m] along the binds and case analyses. *)
Ltac no_raise :=
  repeat first
    [ apply never_raises_bind; [| intros ?]
    | apply never_raises_ret
    | apply never_raises_setattr_package
    | apply never_raises_raise; discriminate
    | apply never_raises_read_global; discriminate
    | apply never_raises_Provider_from_name; discriminate
    | solve [auto]
    | match goal with
      | |- never_raises _ (match ?x with _ => _ end) => destruct x
      | |- never_raises _ (if ?b then _ else _) => destruct b
      end ].

Lemma get_provider_not_ambiguous provider :
  never_raises AmbiguousDeviceSpecification (get_provider canon provider).
Proof. unfold get_provider, set_provider. no_raise. Qed.

Lemma Device_init_not_ambiguous name provider :
  never_raises AmbiguousDeviceSpecification (Device_init canon name provider).
Proof. unfold Device_init. pose proof get_provider_not_ambiguous. no_raise. Qed.

(** C8 (amended): when a provider is given and the device is omitted,
    [set_device] takes the given value as the device: the call is the call
    with that value in the device position and no provider.  The check
    that follows the exchange can then never fire: no call of [set_device]
    raises AmbiguousDeviceSpecification. *)
Theorem set_device_provider_alone_is_device
    (provider device : option pyval) (set_global : bool) (st : state) :
  (∀ v, set_device canon (Some v) None set_global st
        = set_device canon None (Some v) set_global st)
  ∧ (set_device canon provider device set_global st).1 ≠ Raise AmbiguousDeviceSpecification.
Proof.
  split; [reflexivity|].
  revert st. fold (never_raises AmbiguousDeviceSpecification
                     (set_device canon provider device set_global)).
  unfold set_device.
  pose proof get_provider_not_ambiguous. pose proof Device_init_not_ambiguous.
  destruct provider as [p|], device as [d|]; simpl; unfold Device_from_name; no_raise.
Qed.

(** C9: a device string with a provider prefix ([prefix], [sep], name)
    and a provider passed along: if the two name different providers,
    [set_device] and [submit_task] raise ProviderDeviceMismatch; if they
    name the same provider, or no provider is passed, [set_device] answers
    the device of that name whose provider is the one of the prefix. *)
Theorem device_prefix_against_provider
    (st : state) (dev prefix short : string) (rest : list string)
    (v : pyval) (q : Provider.t) (set_global : bool)
    (token : option string) (task_kws : kwargs) :
  Str.split dev sep = prefix :: short :: rest →
  Provider_from_name canon v = Ok q →
  (q ≠ Provider.mk (canon prefix) →
     (set_device canon (Some v) (Some (VStr dev)) set_global st).1
       = Raise ProviderDeviceMismatch
     ∧ (submit_task canon kwargs (Some v) (Some (VStr dev)) token task_kws st).1
       = Raise ProviderDeviceMismatch)
  ∧ (q = Provider.mk (canon prefix) →
     (set_device canon (Some v) (Some (VStr dev)) set_global st).1
       = Ok (Device.mk short q))
  ∧ (set_device canon None (Some (VStr dev)) set_global st).1
       = Ok (Device.mk short (Provider.mk (canon prefix))).
Proof.
  intros Hsplit Hq.
  assert (Hinit : ∀ st, Device_init canon dev (Some v) st
                  = (if decide (q = Provider.mk (canon prefix))
                     then Ok (Device.mk short (Provider.mk (canon prefix)))
                     else Raise ProviderDeviceMismatch, st)).
  { intros st0. unfold Device_init. rewrite Hsplit. unfold bind, lift. simpl.
    rewrite Hq. destruct (decide _); reflexivity. }
  assert (Hinit0 : ∀ st, Device_init canon dev None st
                  = (Ok (Device.mk short (Provider.mk (canon prefix))), st)).
  { intros st0. unfold Device_init. rewrite Hsplit. reflexivity. }
  repeat split.
  - unfold set_device. simpl. unfold bind at 1 2 3. simpl.
    rewrite Hsplit. simpl. unfold bind. rewrite Hinit.
    destruct (decide _); [contradiction | reflexivity].
  - unfold submit_task. unfold bind at 1 2. simpl.
    rewrite Hsplit. simpl. unfold bind. rewrite Hinit.
    destruct (decide _); [contradiction | reflexivity].
  - intros ->. unfold set_device. simpl. unfold bind at 1 2 3. simpl.
    rewrite Hsplit. simpl. unfold bind. rewrite Hinit.
    destruct (decide _); [|contradiction]. destruct set_global; reflexivity.
  - unfold set_device. simpl. unfold bind at 1 2 3. simpl.
    rewrite Hsplit. simpl. unfold bind. rewrite Hinit0.
    destruct set_global; reflexivity.
Qed.

End Devices.

(** ** The token store *)

Lemma first_match_list_to_map target (items : list (string * string)) :
  first_match target items = (list_to_map items : gmap string string) !! target.
Proof.
  induction items as [|[k v] items IH]; [reflexivity|].
  cbn [first_match list_to_map foldr]. simpl.
  destruct (String.eqb_spec k target) as [->|Hne].
  - rewrite lookup_insert_eq. reflexivity.
  - rewrite lookup_insert_ne by assumption. exact IH.
Qed.

(** The loop of [get_token] over the items of a dict is the lookup of the
    key. *)
Lemma first_match_lookup target (d : gmap string string) :
  first_match target (map_to_list d) = d !! target.
Proof. rewrite first_match_list_to_map, list_to_map_to_list. reflexivity. Qed.

Lemma dict_comprehension_total (f : string → option string) (g : string → string)
    (d : gmap string string) :
  (∀ k v, d !! k = Some v → f v = Some (g v)) →
  dict_comprehension f d = Some (g <$> d).
Proof.
  intros H. unfold dict_comprehension.
  assert (mapM (λ kv : string * string, v ← f kv.2; Some (kv.1, v)) (map_to_list d)
          = Some (prod_map id g <$> map_to_list d)) as ->.
  { assert (Hl : ∀ k v, (k, v) ∈ map_to_list d → f v = Some (g v)).
    { intros k v Hin. apply (H k). apply elem_of_map_to_list. exact Hin. }
    clear H. induction (map_to_list d) as [|[k v] l IH]; [reflexivity|].
    cbn [mapM]. simpl. rewrite (Hl k v) by left. simpl.
    rewrite IH; [reflexivity|]. intros k' v' Hin. apply (Hl k'). right. exact Hin. }
  simpl. rewrite list_to_map_fmap, list_to_map_to_list. reflexivity.
Qed.

Lemma dict_comprehension_lookup (f : string → option string) (d d' : gmap string string) :
  dict_comprehension f d = Some d' → ∀ k, d' !! k = d !! k ≫= f.
Proof.
  intros H k.
  assert (Hall : ∀ k v, d !! k = Some v → is_Some (f v)).
  { intros k0 v Hk. unfold dict_comprehension in H.
    destruct (mapM _ _) as [l|] eqn:E; [|discriminate].
    assert (is_Some (mapM (λ kv : string * string, v ← f kv.2; Some (kv.1, v))
                       (map_to_list d))) as Hs by (rewrite E; eauto).
    rewrite mapM_is_Some, Forall_forall in Hs.
    specialize (Hs (k0, v)). simpl in Hs.
    destruct (f v); [eauto|]. destruct Hs as [? ?]; [|discriminate].
    apply elem_of_map_to_list. exact Hk. }
  rewrite (dict_comprehension_total f (λ v, default EmptyString (f v))) in H.
  - injection H as <-. rewrite lookup_fmap.
    destruct (d !! k) as [v|] eqn:E; [|reflexivity]. simpl.
    destruct (Hall k v E) as [w ->]. reflexivity.
  - intros k0 v Hk. destruct (Hall k0 v Hk) as [w ->]. reflexivity.
Qed.

(** The file written by [set_token] is read back as it was. *)
Lemma decode_encoded_dict (d : gmap string string) :
  map_Forall (λ _ v, Utf8.valid v = true) d →
  dict_comprehension b64encode_s d = Some (Base64.b64encode <$> d)
  ∧ dict_comprehension b64decode_s (Base64.b64encode <$> d) = Some d.
Proof.
  intros Hd. split.
  - apply dict_comprehension_total. intros. apply b64encode_s_total.
  - rewrite (dict_comprehension_total b64decode_s
               (λ v, default EmptyString (b64decode_s v))).
    + f_equal. rewrite <- map_fmap_compose.
      rewrite <- (map_fmap_id d) at 2. apply map_fmap_ext.
      intros k v Hk. simpl. rewrite b64decode_s_b64encode; [reflexivity|].
      exact (Hd k v Hk).
    + intros k v Hk. rewrite lookup_fmap in Hk.
      destruct (d !! k) as [w|] eqn:E; [|discriminate]. injection Hk as <-.
      rewrite b64decode_s_b64encode; [reflexivity|]. exact (Hd k w E).
Qed.

Section Tokens.

Variable canon : string → string.

Lemma pure_token_scope provider device : pure_call (token_scope canon provider device).
Proof. unfold token_scope. pose proof (pure_Device_from_name canon). frame. Qed.

Lemma get_token_scope provider device st :
  get_token canon provider device st
  = bind (token_scope canon provider device)
      (λ pd, bind read_saved_token
               (λ saved, ret (first_match (token_key pd.1 pd.2) (map_to_list saved)))) st.
Proof.
  unfold get_token, token_scope, bind, ret, lift, read_saved_token.
  repeat case_match; simplify_eq/=; reflexivity.
Qed.

(** [get_token], once provider and device are settled, looks the key up. *)
Lemma get_token_settled provider device st p d :
  token_scope canon provider device st = (Ok (p, d), st) →
  get_token canon provider device st = (Ok (saved_token st !! token_key p d), st).
Proof.
  intros H. rewrite get_token_scope. erewrite bind_ok by exact H.
  unfold bind, read_saved_token, ret. simpl. rewrite first_match_lookup. reflexivity.
Qed.

Lemma token_scope_inv provider device st p d st' :
  token_scope canon provider device st = (Ok (p, d), st') →
  st' = st
  ∧ ∃ v,
      match provider with
      | None => bind (read_global default_provider) (λ p, ret (VProvider p))
      | Some v => ret v
      end st = (Ok v, st)
      ∧ Provider_from_name canon v = Ok p
      ∧ match device with
        | Some dv => bind (Device_from_name canon dv (Some (VProvider p)))
                       (λ d, ret (Some d))
        | None => ret None
        end st = (Ok d, st).
Proof.
  intros H.
  assert (st' = st) as ->.
  { pose proof (pure_token_scope provider device st) as Hp. rewrite H in Hp. exact Hp. }
  split; [reflexivity|].
  unfold token_scope in H.
  set (A := match provider with None => _ | Some v => _ end) in *.
  assert (HA : pure_call A) by (subst A; frame).
  unfold bind at 1 in H. rewrite (pure_call_eq A st HA) in *.
  destruct (A st).1 as [v|e]; [|discriminate].
  exists v. split; [reflexivity|].
  unfold bind at 1 in H. unfold lift at 1 in H.
  destruct (Provider_from_name canon v) as [q|e]; [|discriminate].
  set (C := match device with Some dv => _ | None => _ end) in *.
  assert (HC : pure_call C) by (subst C; pose proof (pure_Device_from_name canon); frame).
  unfold bind at 1 in H. rewrite (pure_call_eq C st HC) in *.
  destruct (C st).1 as [d'|e] eqn:EC; [|discriminate].
  injection H as -> ->. split; [reflexivity|].
  transitivity ((C st).1, st); [apply (pure_call_eq C st HC) | rewrite EC; reflexivity].
Qed.

(** The file write at the end of [set_token]. *)
Lemma set_token_write_back (cached : bool) st :
  (if cached
   then bind read_saved_token
          (λ saved, bind (lift_option UnicodeDecodeError
                            (dict_comprehension b64encode_s saved))
                      (λ file_token, write_authfile file_token))
   else ret tt) st
  = (Ok tt,
     mkState (sys_modules st) (saved_token st)
       (if cached then Some (JsonObject (Base64.b64encode <$> saved_token st))
        else authfile st)).
Proof.
  destruct cached.
  - unfold bind, read_saved_token, lift_option.
    rewrite (dict_comprehension_total b64encode_s Base64.b64encode)
      by (intros; apply b64encode_s_total).
    reflexivity.
  - destruct st. reflexivity.
Qed.

(** [set_token] with a token, once provider and device are settled. *)
Lemma set_token_with_token t provider device cached st p d :
  token_scope canon provider device st = (Ok (p, d), st) →
  set_token canon (Some t) provider device cached st
  = (Ok ({[ token_key p d := t ]} ∪ saved_token st),
     mkState (sys_modules st) ({[ token_key p d := t ]} ∪ saved_token st)
       (if cached
        then Some (JsonObject (Base64.b64encode <$> ({[ token_key p d := t ]} ∪ saved_token st)))
        else authfile st)).
Proof.
  intros H. apply token_scope_inv in H as (_ & v & HA & Hv & HC).
  unfold set_token.
  erewrite bind_ok by exact HA.
  erewrite bind_ok by (unfold lift; rewrite Hv; reflexivity).
  erewrite bind_ok by exact HC.
  erewrite bind_ok.
  2:{ unfold bind, read_saved_token, write_saved_token.
      instantiate (1 := mkState (sys_modules st) ({[ token_key p d := t ]} ∪ saved_token st)
                          (authfile st)).
      instantiate (1 := tt). destruct d; reflexivity. }
  erewrite bind_ok by apply set_token_write_back.
  destruct cached; reflexivity.
Qed.

(** [set_token] without a token, once provider and device are settled:
    the file, if it is read, is the base of the merge. *)
Lemma set_token_reload provider device cached st p d (base : gmap string string) :
  token_scope canon provider device st = (Ok (p, d), st) →
  match cached, authfile st with
  | true, Some (JsonObject file_token) =>
      dict_comprehension b64decode_s file_token = Some base
  | true, Some Malformed => False
  | _, _ => base = ∅
  end →
  set_token canon None provider device cached st
  = (Ok (saved_token st ∪ base),
     mkState (sys_modules st) (saved_token st ∪ base)
       (if cached
        then Some (JsonObject (Base64.b64encode <$> (saved_token st ∪ base)))
        else authfile st)).
Proof.
  intros H Hbase. apply token_scope_inv in H as (_ & v & HA & Hv & HC).
  unfold set_token.
  erewrite bind_ok by exact HA.
  erewrite bind_ok by (unfold lift; rewrite Hv; reflexivity).
  erewrite bind_ok by exact HC.
  erewrite bind_ok.
  2:{ unfold bind at 1. unfold read_authfile.
      instantiate (1 := mkState (sys_modules st) (saved_token st ∪ base) (authfile st)).
      instantiate (1 := tt).
      destruct cached, (authfile st) as [[|file_token]|] eqn:Ef; try contradiction;
        unfold bind, lift_option, raise, ret, read_saved_token, write_saved_token;
        rewrite ?Hbase, ?Ef; subst; reflexivity. }
  erewrite bind_ok by apply set_token_write_back.
  destruct cached; reflexivity.
Qed.

(** A file that is no JSON object of base64 strings stops the reload. *)
Lemma set_token_reload_corrupt provider device st p d :
  token_scope canon provider device st = (Ok (p, d), st) →
  match authfile st with
  | Some Malformed => True
  | Some (JsonObject file_token) => dict_comprehension b64decode_s file_token = None
  | None => False
  end →
  set_token canon None provider device true st = (Raise TokenStoreCorrupt, st).
Proof.
  intros H Hfile. apply token_scope_inv in H as (_ & v & HA & Hv & HC).
  unfold set_token.
  erewrite bind_ok by exact HA.
  erewrite bind_ok by (unfold lift; rewrite Hv; reflexivity).
  erewrite bind_ok by exact HC.
  apply bind_raise. unfold bind at 1. unfold read_authfile.
  destruct (authfile st) as [[|file_token]|] eqn:Ef; try contradiction.
  - reflexivity.
  - unfold bind, lift_option. rewrite Hfile. reflexivity.
Qed.

Lemma reads_modules_bind {A B} (m : M A) (k : A → M B) :
  pure_call m → reads_modules m → (∀ a, reads_modules (k a)) → reads_modules (bind m k).
Proof.
  intros Hp Hm Hk st1 st2 Heq. unfold bind.
  rewrite (pure_call_eq m st1 Hp), (pure_call_eq m st2 Hp), (Hm st1 st2 Heq).
  destruct (m st2).1; [apply Hk; exact Heq | reflexivity].
Qed.

Lemma reads_modules_const {A} (r : result A) : reads_modules (lift r).
Proof. intros st1 st2 _. reflexivity. Qed.

Lemma reads_modules_read_global {A} (attr : namespace → option A) :
  reads_modules (read_global attr).
Proof.
  intros st1 st2 Heq. unfold read_global. rewrite Heq.
  destruct (_ ≫= _); reflexivity.
Qed.

(** Break a goal [reads_modules m] along the binds and case analyses. *)
Ltac modules_only :=
  repeat first
    [ apply reads_modules_bind; [solve [frame] | | intros ?]
    | apply reads_modules_read_global
    | apply (reads_modules_const (Ok _))
    | apply (reads_modules_const (Raise _))
    | apply reads_modules_const
    | solve [auto]
    | match goal with
      | |- reads_modules (match ?x with _ => _ end) => destruct x
      | |- reads_modules (if ?b then _ else _) => destruct b
      end ].

Lemma reads_modules_get_provider provider : reads_modules (get_provider canon provider).
Proof. unfold get_provider, set_provider. modules_only. Qed.

Lemma reads_modules_Device_from_name device provider :
  reads_modules (Device_from_name canon device provider).
Proof.
  unfold Device_from_name, Device_init.
  pose proof reads_modules_get_provider. pose proof (pure_get_provider canon).
  modules_only.
Qed.

Lemma reads_modules_token_scope provider device :
  reads_modules (token_scope canon provider device).
Proof.
  unfold token_scope.
  pose proof reads_modules_Device_from_name. pose proof (pure_Device_from_name canon).
  modules_only.
Qed.

(** Provider and device settle alike in two processes with the same
    modules. *)
Lemma token_scope_same_modules provider device st st' p d :
  sys_modules st' = sys_modules st →
  token_scope canon provider device st = (Ok (p, d), st) →
  token_scope canon provider device st' = (Ok (p, d), st').
Proof.
  intros Heq H.
  rewrite (pure_call_eq _ st' (pure_token_scope provider device)).
  rewrite (reads_modules_token_scope provider device st' st Heq), H. reflexivity.
Qed.

(** Handles settle as themselves. *)
Lemma token_scope_handles (p : Provider.t) (d : option Device.t) st :
  token_scope canon (Some (VProvider p)) (VDevice <$> d) st = (Ok (p, d), st).
Proof. destruct d; reflexivity. Qed.

End Tokens.

Section TokenClaims.

Variable canon : string → string.

(** C3: [get_token(P, D)] answers the value stored under the one key that
    provider and device give ([P.name + sep] without a device,
    [P.name + sep + D.name] with one), and None when that key is absent:
    with a device and no token under the device's key the answer is None
    whatever is stored under the key of the provider alone. *)
Theorem get_token_exact_key (st : state) (provider device : option pyval)
    (p : Provider.t) (d : option Device.t) :
  token_scope canon provider device st = (Ok (p, d), st) →
  get_token canon provider device st = (Ok (saved_token st !! token_key p d), st)
  ∧ (∀ dev,
        d = Some dev →
        saved_token st !! ((Provider.name p ++ sep) ++ Device.name dev) = None →
        (get_token canon provider device st).1 = Ok None).
Proof.
  intros H. pose proof (get_token_settled canon provider device st p d H) as Hget.
  split; [exact Hget|].
  intros dev -> Hnone. rewrite Hget. simpl. rewrite Hnone. reflexivity.
Qed.

(** C4: [set_token(t, P, D)] followed by [get_token(P, D)] answers [t]:
    the token is stored under the key of [P] and [D] and read back from
    it. *)
Theorem set_token_then_get_token (st : state) (t : string)
    (provider device : option pyval) (cached : bool)
    (p : Provider.t) (d : option Device.t) :
  token_scope canon provider device st = (Ok (p, d), st) →
  ∃ m st',
    set_token canon (Some t) provider device cached st = (Ok m, st')
    ∧ m !! token_key p d = Some t
    ∧ get_token canon provider device st' = (Ok (Some t), st').
Proof.
  intros H. eexists _, _. split; [apply (set_token_with_token canon), H|].
  split.
  - apply lookup_union_Some_l, lookup_singleton_eq.
  - match goal with |- get_token _ _ _ ?s = _ => set (st' := s) end.
    assert (Hs : token_scope canon provider device st' = (Ok (p, d), st'))
      by (apply (token_scope_same_modules canon _ _ st); [reflexivity | exact H]).
    rewrite (get_token_settled canon provider device st' p d Hs).
    subst st'. cbn [saved_token].
    rewrite (lookup_union_Some_l _ _ _ t) by apply lookup_singleton_eq. reflexivity.
Qed.

(** C2 (amended): [set_token] without a token and with [cached=True]
    merges the decoded file as the base under the tokens in memory: a key
    in memory keeps its value, a key of the file alone takes the value of
    the file, so on a key of both the value in memory wins; every mapping
    [F] of strs is the decoded content of a file; a file that does not
    exist is an empty base and no error.  With [cached=False] the file is
    not read: the call answers the tokens in memory and nothing of the
    file, and leaves memory and file as they were. *)
Theorem set_token_reload_merges (st : state) (provider device : option pyval)
    (p : Provider.t) (d : option Device.t) :
  token_scope canon provider device st = (Ok (p, d), st) →
  (∀ file_token F,
      authfile st = Some (JsonObject file_token) →
      dict_comprehension b64decode_s file_token = Some F →
      ∃ R, (set_token canon None provider device true st).1 = Ok R
         ∧ saved_token (set_token canon None provider device true st).2 = R
         ∧ (∀ k v, saved_token st !! k = Some v → R !! k = Some v)
         ∧ (∀ k v, saved_token st !! k = None → F !! k = Some v → R !! k = Some v)
         ∧ (∀ k, saved_token st !! k = None → F !! k = None → R !! k = None))
  ∧ (∀ F,
      map_Forall (λ _ v, Utf8.valid v = true) F →
      authfile st = Some (JsonObject (Base64.b64encode <$> F)) →
      (set_token canon None provider device true st).1 = Ok (saved_token st ∪ F))
  ∧ (authfile st = None →
      (set_token canon None provider device true st).1 = Ok (saved_token st)
      ∧ saved_token (set_token canon None provider device true st).2 = saved_token st)
  ∧ (set_token canon None provider device false st).1 = Ok (saved_token st)
  ∧ saved_token (set_token canon None provider device false st).2 = saved_token st
  ∧ authfile (set_token canon None provider device false st).2 = authfile st.
Proof.
  intros H. split; [|split; [|split]].
  - intros file_token F Hfile HF. exists (saved_token st ∪ F).
    rewrite (set_token_reload canon provider device true st p d F H)
      by (rewrite Hfile; exact HF).
    repeat split.
    + intros k v Hk. apply lookup_union_Some_l. exact Hk.
    + intros k v Hk HkF. rewrite lookup_union_r by exact Hk. exact HkF.
    + intros k Hk HkF. apply lookup_union_None. split; assumption.
  - intros F HF Hfile. destruct (decode_encoded_dict F HF) as [_ Hdec].
    rewrite (set_token_reload canon provider device true st p d F H)
      by (rewrite Hfile; exact Hdec).
    reflexivity.
  - intros Hfile.
    rewrite (set_token_reload canon provider device true st p d ∅ H)
      by (rewrite Hfile; reflexivity).
    cbn [fst snd saved_token]. rewrite (right_id_L ∅ (∪)). split; reflexivity.
  - rewrite (set_token_reload canon provider device false st p d ∅ H) by reflexivity.
    cbn [fst snd saved_token authfile]. rewrite (right_id_L ∅ (∪)). repeat split.
Qed.

(** C5: [set_token] with [cached=True] leaves in the file the whole
    mapping in memory, every value base64-encoded, in place of what the
    file held; and a load into a process that has no token in memory
    ([set_token(None)] with the same file) answers that same mapping:
    every secret comes back from its encoding unchanged. *)
Theorem persist_then_fresh_load (st : state) (token : option string)
    (provider device : option pyval) (p : Provider.t) (d : option Device.t)
    (m : gmap string string) (st1 : state) :
  token_scope canon provider device st = (Ok (p, d), st) →
  map_Forall (λ _ v, Utf8.valid v = true) (saved_token st) →
  (∀ t, token = Some t → Utf8.valid t = true) →
  set_token canon token provider device true st = (Ok m, st1) →
  saved_token st1 = m
  ∧ authfile st1 = Some (JsonObject (Base64.b64encode <$> m))
  ∧ dict_comprehension b64decode_s (Base64.b64encode <$> m) = Some m
  ∧ ∀ st2,
      sys_modules st2 = sys_modules st1 →
      saved_token st2 = ∅ →
      authfile st2 = authfile st1 →
      (set_token canon None provider device true st2).1 = Ok m
      ∧ saved_token (set_token canon None provider device true st2).2 = m.
Proof.
  intros H Hvalid Htoken Hset.
  assert (saved_token st1 = m
          ∧ sys_modules st1 = sys_modules st
          ∧ authfile st1 = Some (JsonObject (Base64.b64encode <$> m))
          ∧ map_Forall (λ _ v, Utf8.valid v = true) m) as (Hm & Hmod & Hfile & Hvm).
  { destruct token as [t|].
    - rewrite (set_token_with_token canon t provider device true st p d H) in Hset.
      injection Hset as <- <-. repeat split.
      apply map_Forall_union_2; [|exact Hvalid].
      apply map_Forall_singleton. apply Htoken. reflexivity.
    - destruct (authfile st) as [[|file_token]|] eqn:Ef.
      + rewrite (set_token_reload_corrupt canon provider device st p d H) in Hset
          by (rewrite Ef; exact I).
        discriminate.
      + destruct (dict_comprehension b64decode_s file_token) as [F|] eqn:EF.
        * rewrite (set_token_reload canon provider device true st p d F H) in Hset
            by (rewrite Ef; exact EF).
          injection Hset as <- <-. repeat split.
          apply map_Forall_union_2; [exact Hvalid|].
          intros k v Hk.
          pose proof (dict_comprehension_lookup _ _ _ EF k) as Hl. rewrite Hk in Hl.
          destruct (file_token !! k) as [w|]; [|discriminate]. simpl in Hl.
          symmetry in Hl. exact (b64decode_s_valid _ _ Hl).
        * rewrite (set_token_reload_corrupt canon provider device st p d H) in Hset
            by (rewrite Ef; exact EF).
          discriminate.
      + rewrite (set_token_reload canon provider device true st p d ∅ H) in Hset
          by (rewrite Ef; reflexivity).
        injection Hset as <- <-. repeat split.
        rewrite (right_id_L ∅ (∪)). exact Hvalid. }
  destruct (decode_encoded_dict m Hvm) as [_ Hdec].
  split; [exact Hm|]. split; [exact Hfile|]. split; [exact Hdec|].
  intros st2 Hmod2 Hempty Hfile2.
  assert (Hs2 : token_scope canon provider device st2 = (Ok (p, d), st2)).
  { apply (token_scope_same_modules canon _ _ st); [congruence | exact H]. }
  rewrite (set_token_reload canon provider device true st2 p d m Hs2)
    by (rewrite Hfile2, Hfile; exact Hdec).
  cbn [fst snd saved_token]. rewrite Hempty, (left_id_L ∅ (∪)). split; reflexivity.
Qed.

End TokenClaims.

(** ** Task references *)

Section Tasks.

Variable canon : string → string.
Variable sep2 : string.

(** C7 (amended): a task reference in which [sep2] occurs once, between
    [l] and [r], is taken apart: [l] goes through the Device constructor
    and [r] is the id, so that "tencent::20xmon", [sep2], "abc123" gives the task
    "abc123" on the device "20xmon" of the provider "tencent".  Where
    [sep2] occurs again the id is not the whole right side: it is the
    segment between the first and the second [sep2], and what follows is
    dropped (in general the device is the first segment and the id the
    second).  A reference without [sep2] is an id with no device; and with
    a device passed along the reference is the id as it stands. *)
Theorem get_task_splits_reference (st : state) :
  sep2 ≠ EmptyString →
  (∀ l r,
      Str.find sep2 (l ++ sep2) = Some (String.length l) →
      Str.find sep2 r = None →
      get_task canon sep2 (l ++ sep2 ++ r) None None st
      = bind (Device_init canon l None) (λ d, ret (Task.mk r (Some d))) st)
  ∧ (∀ raw l r rest,
      Str.split raw sep2 = l :: r :: rest →
      get_task canon sep2 raw None None st
      = bind (Device_init canon l None) (λ d, ret (Task.mk r (Some d))) st)
  ∧ (Str.find sep2 ("tencent::20xmon" ++ sep2) = Some 15 →
     Str.find sep2 "abc123" = None →
     get_task canon sep2 ("tencent::20xmon" ++ sep2 ++ "abc123") None None st
     = (Ok (Task.mk "abc123"
              (Some (Device.mk "20xmon" (Provider.mk (canon "tencent"))))), st))
  ∧ (∀ raw,
      Str.find sep2 raw = None →
      get_task canon sep2 raw None None st = (Ok (Task.mk raw None), st))
  ∧ (∀ raw provider device,
      get_task canon sep2 raw provider (Some device) st
      = bind (Device_from_name canon device provider)
          (λ d, ret (Task.mk raw (Some d))) st)
  ∧ (∀ l r rest,
      Str.find sep2 (l ++ sep2) = Some (String.length l) →
      Str.find sep2 (r ++ sep2) = Some (String.length r) →
      get_task canon sep2 (l ++ sep2 ++ r ++ sep2 ++ rest) None None st
      = bind (Device_init canon l None) (λ d, ret (Task.mk r (Some d))) st).
Proof.
  intros Hsep.
  assert (Hsplit : ∀ l r,
             Str.find sep2 (l ++ sep2) = Some (String.length l) →
             Str.find sep2 r = None →
             get_task canon sep2 (l ++ sep2 ++ r) None None st
             = bind (Device_init canon l None) (λ d, ret (Task.mk r (Some d))) st).
  { intros l r Hl Hr. unfold get_task. cbn [swap_provider_device].
    rewrite (split_first l sep2 r Hsep Hl), (split_absent r sep2 Hr). reflexivity. }
  split; [exact Hsplit|]. split; [|split; [|split; [|split]]].
  - intros raw l r rest Hraw. unfold get_task. cbn [swap_provider_device].
    rewrite Hraw. reflexivity.
  - intros Hl Hr. rewrite (Hsplit "tencent::20xmon" "abc123" Hl Hr). reflexivity.
  - intros raw Hraw. unfold get_task. cbn [swap_provider_device].
    rewrite (split_absent raw sep2 Hraw). reflexivity.
  - intros raw provider device. unfold get_task.
    destruct provider; reflexivity.
  - intros l r rest Hl Hr. unfold get_task. cbn [swap_provider_device].
    rewrite (split_first l sep2 (r ++ sep2 ++ rest) Hsep Hl),
      (split_first r sep2 rest Hsep Hr).
    reflexivity.
Qed.

End Tasks.

(** ** Dispatch *)

Section Dispatch.

Variable canon : string → string.
Variable kwargs : Type.

Lemma get_token_handles (p : Provider.t) (d : option Device.t) st :
  get_token canon (Some (VProvider p)) (VDevice <$> d) st
  = (Ok (saved_token st !! token_key p d), st).
Proof. apply get_token_settled, token_scope_handles. Qed.

Lemma Provider_get_token_ok p st :
  Provider_get_token canon p st = (Ok (saved_token st !! token_key p None), st).
Proof. apply (get_token_handles p None). Qed.

Lemma Device_get_token_ok d st :
  Device_get_token canon d st
  = (Ok (saved_token st !! token_key (Device.provider d) (Some d)), st).
Proof. apply (get_token_handles (Device.provider d) (Some d)). Qed.

(** The token handed to a backend: the one passed, else the one looked
    up. *)
Lemma token_or_lookup (token : option string) (m : M (option string)) st r :
  m st = (Ok r, st) →
  match token with None => m | Some _ => ret token end st
  = (Ok (match token with None => r | Some _ => token end), st).
Proof. intros H. destruct token; [reflexivity | exact H]. Qed.

(** Run the binds of a call whose steps are decided by the hypotheses or
    by computation. *)
Ltac run_binds :=
  repeat first
    [ erewrite bind_ok by first [eassumption | reflexivity]
    | erewrite bind_raise by reflexivity
    | progress simpl ].

(** With the provider and the device given as handles, every operation
    raises UnsupportedProvider for a provider that has no backend for it,
    and leaves the process as it was. *)
Lemma unsupported_provider_on_handles (st : state) (p : Provider.t) (d : Device.t)
    (od : option Device.t) (id_ : string) (token : option string) (kws : kwargs) :
  let name := Provider.name p in
  let task := VTask (Task.mk id_ (Some d)) in
  Device.provider d = p →
  name ≠ "tencent" →
  (name ≠ "local" →
     list_devices canon kwargs (Some (VProvider p)) token st
       = (Raise (UnsupportedProvider name), st)
     ∧ get_task_details canon kwargs task token st
       = (Raise (UnsupportedProvider name), st)
     ∧ submit_task canon kwargs (Some (VProvider p)) (Some (VDevice d)) token kws st
       = (Raise (UnsupportedProvider name), st)
     ∧ submit_task canon kwargs None (Some (VDevice d)) token kws st
       = (Raise (UnsupportedProvider name), st)
     ∧ list_tasks canon kwargs (Some (VProvider p)) (VDevice <$> od) token kws st
       = (Raise (UnsupportedProvider name), st))
  ∧ list_properties canon kwargs (Some (VProvider p)) (Some (VDevice d)) token st
    = (Raise (UnsupportedProvider name), st)
  ∧ list_properties canon kwargs None (Some (VDevice d)) token st
    = (Raise (UnsupportedProvider name), st)
  ∧ resubmit_task canon kwargs (Some task) token st
    = (Raise (UnsupportedProvider name), st)
  ∧ remove_task canon kwargs (Some task) token st
    = (Raise (UnsupportedProvider name), st).
Proof.
  intros name task Hd Ht.
  apply String.eqb_neq in Ht.
  pose proof (Provider_get_token_ok p st) as Hpt.
  pose proof (Device_get_token_ok d st) as Hdt.
  pose proof (token_or_lookup token _ st _ Hpt) as Hpt'.
  pose proof (token_or_lookup token _ st _ Hdt) as Hdt'.
  repeat split; intros;
    try match goal with H : name ≠ "local" |- _ => apply String.eqb_neq in H end;
    unfold list_devices, get_task_details, submit_task, list_tasks, list_properties,
      resubmit_task, remove_task;
    try (destruct od);
    run_binds; rewrite ?Hd; fold name;
    repeat match goal with H : (_ =? _)%string = false |- _ => rewrite H end;
    reflexivity.
Qed.

(** C1 (what the code does where the claim fails): with the provider given
    as a string next to a device, [submit_task] and [list_properties] never
    turn the string into a Provider; both read [provider.name] of a str and
    raise AttributeError, whatever the name, before any backend is
    called. *)
Theorem str_provider_raises_AttributeError (st : state) (name : string)
    (d : Device.t) (token : option string) (kws : kwargs) :
  submit_task canon kwargs (Some (VStr name)) (Some (VDevice d)) token kws st
    = (Raise AttributeError, st)
  ∧ list_properties canon kwargs (Some (VStr name)) (Some (VDevice d)) token st
    = (Raise AttributeError, st).
Proof.
  pose proof (Device_get_token_ok d st) as Hdt.
  pose proof (token_or_lookup token _ st _ Hdt) as Hdt'.
  split; [unfold submit_task | unfold list_properties]; run_binds; reflexivity.
Qed.

End Dispatch.

(** ** The default provider and its readers *)

Section DefaultProvider.

Variable canon : string → string.
Variable kwargs : Type.

Ltac run_reads :=
  repeat first
    [ erewrite bind_ok by first [eassumption | reflexivity]
    | erewrite bind_raise by reflexivity
    | progress simpl ].

Lemma Device_init_bare dname p st :
  Nat.ltb 1 (length (Str.split dname sep)) = false →
  Device_init canon dname (Some (VProvider p)) st = (Ok (Device.mk dname p), st).
Proof.
  intros H. unfold Device_init.
  destruct (Str.split dname sep) as [|a [|b l]]; try discriminate; reflexivity.
Qed.

Lemma run_by_backend {A} name (x y : A) st :
  (if String.eqb name "tencent" then ret x
   else if String.eqb name "local" then ret y
   else raise (UnsupportedProvider name)) st
  = (by_backend name x y, st).
Proof.
  unfold by_backend. destruct (String.eqb name "tencent"), (String.eqb name "local");
    reflexivity.
Qed.

Lemma run_by_tencent {A} name (x : A) st :
  (if String.eqb name "tencent" then ret x else raise (UnsupportedProvider name)) st
  = (by_tencent name x, st).
Proof. unfold by_tencent. destruct (String.eqb name "tencent"); reflexivity. Qed.

(** C6 (amended): after [set_provider(p)] with [set_global=True], the
    default provider of every module of the package is the provider just
    set, and every operation of apis.py that reads the default provider
    works with it: [get_provider()] answers it, [get_token] and
    [set_token] use its key, [list_devices] and [list_tasks] choose its
    backend and look up its token, [set_device] and [submit_task] put a
    device name without prefix under it.  The operations that fall back on
    the default device do not read the default provider: [get_device()],
    [submit_task()], [list_properties()] and [get_task_details] on an id
    go by the default device, which [set_provider] leaves as it was, and
    so by the provider of that device. *)
Theorem set_provider_seen_by_readers (st : state) (provider : pyval) :
  is_provider_arg provider = true →
  is_Some (sys_modules st !! this_module) →
  ∃ p, (set_provider canon (Some provider) true st).1 = Ok p
    ∧ Provider_from_name canon provider = Ok p
    ∧ let st' := (set_provider canon (Some provider) true st).2 in
      let name := Provider.name p in
      (∀ module ns,
          sys_modules st' !! module = Some ns →
          Str.startswith module package_name = true →
          default_provider ns = Some p)
      ∧ read_global default_provider st' = (Ok p, st')
      ∧ get_provider canon None st' = (Ok p, st')
      ∧ get_token canon None None st' = (Ok (saved_token st' !! (name ++ sep)), st')
      ∧ (∀ d, get_token canon None (Some (VDevice d)) st'
              = (Ok (saved_token st' !! ((name ++ sep) ++ Device.name d)), st'))
      ∧ (∀ device, get_token canon None device st'
                   = get_token canon (Some (VProvider p)) device st')
      ∧ (∀ t cached,
            (set_token canon (Some t) None None cached st').1
            = Ok ({[ name ++ sep := t ]} ∪ saved_token st'))
      ∧ (∀ token device cached,
            set_token canon token None device cached st'
            = set_token canon token (Some (VProvider p)) device cached st')
      ∧ (∀ token,
            let tok := token_or_stored token st' (name ++ sep) in
            list_devices canon kwargs None token st'
            = (by_backend name (tencent_list_devices tok) (local_list_devices tok), st'))
      ∧ (∀ token filter_kws,
            let tok := token_or_stored token st' (name ++ sep) in
            list_tasks canon kwargs None None token filter_kws st'
            = (by_backend name (tencent_list_tasks None tok filter_kws)
                 (local_list_tasks None tok filter_kws), st'))
      ∧ (∀ device token filter_kws,
            list_tasks canon kwargs None device token filter_kws st'
            = list_tasks canon kwargs (Some (VProvider p)) device token filter_kws st')
      ∧ (∀ dname set_global,
            Nat.ltb 1 (length (Str.split dname sep)) = false →
            (set_device canon None (Some (VStr dname)) set_global st').1
            = Ok (Device.mk dname p))
      ∧ (∀ dname token task_kws,
            Nat.ltb 1 (length (Str.split dname sep)) = false →
            let dev := Device.mk dname p in
            let tok := token_or_stored token st' ((name ++ sep) ++ dname) in
            submit_task canon kwargs None (Some (VStr dname)) token task_kws st'
            = (by_backend name (tencent_submit_task (VDevice dev) tok task_kws)
                 (local_submit_task (VDevice dev) tok task_kws), st'))
      ∧ (∀ dev0,
            read_global default_device st = (Ok dev0, st) →
            let name0 := Provider.name (Device.provider dev0) in
            read_global default_device st' = (Ok dev0, st')
            ∧ get_device canon None None st' = (Ok dev0, st')
            ∧ (∀ token task_kws,
                  let tok := token_or_stored token st' ((name0 ++ sep) ++ Device.name dev0) in
                  submit_task canon kwargs None None token task_kws st'
                  = (by_backend name0 (tencent_submit_task (VDevice dev0) tok task_kws)
                       (local_submit_task (VDevice dev0) tok task_kws), st'))
            ∧ (∀ token,
                  let tok := token_or_stored token st' ((name0 ++ sep) ++ Device.name dev0) in
                  list_properties canon kwargs None None token st'
                  = (by_tencent name0 (tencent_list_properties dev0 tok), st'))
            ∧ (∀ id_ token,
                  let tok := token_or_stored token st' ((name0 ++ sep) ++ Device.name dev0) in
                  get_task_details canon kwargs (VStr id_) token st'
                  = (by_backend name0
                       (tencent_get_task_details (Task.mk id_ None) dev0 tok)
                       (local_get_task_details (Task.mk id_ None) dev0 tok), st'))).
Proof.
  intros Harg [ns0 Hns0].
  assert (∃ p, Provider_from_name canon provider = Ok p) as [p Hp].
  { destruct provider; try discriminate; simpl; eauto. }
  exists p.
  assert (set_provider canon (Some provider) true st
          = (Ok p, (setattr_package (set_default_provider p) st).2)) as Hrun.
  { unfold set_provider, bind, ret, lift. rewrite Hp. reflexivity. }
  rewrite Hrun. cbn [fst snd].
  set (st' := (setattr_package (set_default_provider p) st).2).
  assert (read_global default_provider st' = (Ok p, st')) as Hread.
  { unfold read_global. subst st'. rewrite lookup_setattr_package, Hns0. reflexivity. }
  split; [reflexivity|]. split; [assumption|]. cbv zeta.
  assert (Hgp : get_provider canon None st' = (Ok p, st')).
  { unfold get_provider, set_provider.
    rewrite (omitted_provider_is_default _ _ _ Hread). reflexivity. }
  assert (Hget : bind (get_provider canon None) (λ p, ret (VProvider p)) st'
                 = (Ok (VProvider p), st'))
    by (rewrite (bind_ok _ _ _ _ _ Hgp); reflexivity).
  assert (Hdef : bind (read_global default_provider) (λ p, ret (VProvider p)) st'
                 = (Ok (VProvider p), st'))
    by (rewrite (bind_ok _ _ _ _ _ Hread); reflexivity).
  assert (Hscope : ∀ d, token_scope canon None (VDevice <$> d) st' = (Ok (p, d), st')).
  { intros d. unfold token_scope.
    rewrite (omitted_provider_is_default _ _ _ Hread). destruct d; reflexivity. }
  assert (Htok : ∀ (q : Provider.t) token,
             match token with
             | None => Provider_get_token canon q
             | Some _ => ret token
             end st'
             = (Ok (token_or_stored token st' (Provider.name q ++ sep)), st')).
  { intros q token. destruct token; [reflexivity|]. apply Provider_get_token_ok. }
  assert (Hdtok : ∀ (d : Device.t) token,
             match token with
             | None => Device_get_token canon d
             | Some _ => ret token
             end st'
             = (Ok (token_or_stored token st'
                      ((Provider.name (Device.provider d) ++ sep) ++ Device.name d)), st')).
  { intros d token. destruct token; [reflexivity|]. apply Device_get_token_ok. }
  repeat apply conj.
  - intros module ns Hm Hpre. subst st'. rewrite lookup_setattr_package in Hm.
    destruct (sys_modules st !! module) as [ns1|]; [|discriminate].
    simpl in Hm. rewrite Hpre in Hm. injection Hm as <-. reflexivity.
  - exact Hread.
  - exact Hgp.
  - exact (get_token_settled canon None None st' p None (Hscope None)).
  - intros d. exact (get_token_settled canon None _ st' p (Some d) (Hscope (Some d))).
  - intros device. unfold get_token. apply omitted_provider_is_default, Hread.
  - intros t cached.
    rewrite (set_token_with_token canon t None None cached st' p None (Hscope None)).
    reflexivity.
  - intros token device cached. unfold set_token.
    apply omitted_provider_is_default, Hread.
  - intros token. cbv zeta. unfold list_devices.
    rewrite (bind_ok _ _ _ _ _ Hdef).
    rewrite (bind_ok (lift (Provider_from_name canon (VProvider p))) _ st' p st' eq_refl).
    rewrite (bind_ok _ _ _ _ _ (Htok p token)).
    apply run_by_backend.
  - intros token kws. cbv zeta. unfold list_tasks.
    rewrite (bind_ok _ _ _ _ _ Hdef).
    rewrite (bind_ok (lift (Provider_from_name canon (VProvider p))) _ st' p st' eq_refl).
    rewrite (bind_ok _ _ _ _ _ (Htok p token)).
    cbn beta iota. apply run_by_backend.
  - intros device token kws. unfold list_tasks. apply omitted_provider_is_default, Hread.
  - intros dname set_global Hbare. unfold set_device.
    cbn beta iota delta [swap_provider_device]. rewrite !bind_ret. cbn beta iota.
    rewrite Hbare.
    erewrite bind_ok.
    2:{ rewrite (bind_ok _ _ _ _ _ Hget). apply Device_init_bare, Hbare. }
    destruct set_global; reflexivity.
  - intros dname token kws Hbare. cbv zeta. unfold submit_task.
    rewrite !bind_ret. cbn beta iota. rewrite Hbare.
    erewrite bind_ok.
    2:{ rewrite (bind_ok _ _ _ _ _ Hget).
        rewrite (bind_ok _ _ _ _ _ (Device_init_bare dname p st' Hbare)). reflexivity. }
    cbn beta iota. rewrite bind_ret.
    erewrite bind_ok by exact (Hdtok (Device.mk dname p) token).
    erewrite bind_ok by reflexivity. apply run_by_backend.
  - intros dev0 Hdev0. cbv zeta.
    assert (Hrd : read_global default_device st' = (Ok dev0, st')).
    { unfold read_global in Hdev0 |- *. subst st'. rewrite lookup_setattr_package.
      destruct (sys_modules st !! this_module) as [ns|]; [|discriminate].
      simpl in *. destruct (default_device ns); [|discriminate]. congruence. }
    assert (Hrd' : bind (read_global default_device) (λ d, ret (VDevice d)) st'
                   = (Ok (VDevice dev0), st'))
      by (rewrite (bind_ok _ _ _ _ _ Hrd); reflexivity).
    assert (Hgd : get_device canon None None st' = (Ok dev0, st')).
    { unfold get_device, set_device. cbn beta iota delta [swap_provider_device].
      rewrite bind_ret. rewrite (bind_ok _ _ _ _ _ Hrd'). cbn beta iota.
      erewrite bind_ok.
      2:{ rewrite (bind_ok _ _ _ _ _ Hget). reflexivity. }
      reflexivity. }
    repeat apply conj.
    + exact Hrd.
    + exact Hgd.
    + intros token kws. unfold submit_task.
      erewrite bind_ok.
      2:{ rewrite (bind_ok _ _ _ _ _ Hgd). reflexivity. }
      cbn beta iota. rewrite bind_ret. cbn beta iota.
      erewrite bind_ok by reflexivity.
      erewrite bind_ok by exact (Hdtok dev0 token).
      erewrite bind_ok by reflexivity. apply run_by_backend.
    + intros token. unfold list_properties. cbn beta iota delta [swap_provider_device].
      rewrite (bind_ok _ _ _ _ _ Hrd').
      erewrite bind_ok by reflexivity.
      erewrite bind_ok by exact (Hdtok dev0 token).
      erewrite bind_ok by reflexivity. apply run_by_tencent.
    + intros id_ token. unfold get_task_details.
      erewrite bind_ok by reflexivity. cbn beta iota.
      rewrite (bind_ok _ _ _ _ _ Hrd).
      erewrite bind_ok by exact (Hdtok dev0 token).
      apply run_by_backend.
Qed.

End DefaultProvider.

(** * Further properties of apis.py *)

(** ** The setters and the process around them *)

Lemma bind_assoc {A B C} (m : M A) (f : A → M B) (g : B → M C) st :
  bind (bind m f) g st = bind m (λ a, bind (f a) g) st.
Proof. unfold bind. destruct (m st) as [[a|e] st']; reflexivity. Qed.

(** A call that reads, followed by an optional broadcast of what it read. *)
Lemma read_then_broadcast {A} (m : M A) (upd : A → namespace → namespace) st :
  pure_call m →
  bind m (λ a, bind (setattr_package (upd a)) (λ _, ret a)) st
  = match (m st).1 with
    | Ok a => (Ok a, (setattr_package (upd a) st).2)
    | Raise e => (Raise e, st)
    end.
Proof.
  intros Hp. unfold bind at 1. rewrite (pure_call_eq m st Hp).
  destruct (m st).1; reflexivity.
Qed.

Lemma setattr_package_frame upd st :
  saved_token (setattr_package upd st).2 = saved_token st
  ∧ authfile (setattr_package upd st).2 = authfile st.
Proof. split; reflexivity. Qed.

Lemma setattr_package_twice upd1 upd2 st :
  (∀ ns, upd2 (upd1 ns) = upd2 ns) →
  (setattr_package upd2 (setattr_package upd1 st).2).2 = (setattr_package upd2 st).2.
Proof.
  intros H. unfold setattr_package. cbn [snd sys_modules saved_token authfile]. f_equal.
  apply map_eq. intros module. rewrite !map_lookup_imap.
  destruct (sys_modules st !! module) as [ns|]; [|reflexivity]. simpl.
  destruct (Str.startswith module package_name); [rewrite H|]; reflexivity.
Qed.

Section SettersAround.

Variable canon : string → string.
Variable kwargs : Type.

Lemma set_provider_run st provider p :
  (get_provider canon provider st).1 = Ok p →
  set_provider canon provider true st
  = (Ok p, (setattr_package (set_default_provider p) st).2).
Proof.
  intros H. unfold get_provider, set_provider in *.
  rewrite <- bind_assoc in *.
  set (m := bind _ (λ provider, lift (Provider_from_name canon provider))) in *.
  assert (Hm : pure_call m) by (subst m; frame).
  rewrite (read_then_broadcast m set_default_provider st Hm).
  unfold bind in H. rewrite (pure_call_eq m st Hm) in H.
  destruct (m st).1 as [q|e]; [|discriminate]. simpl in H. congruence.
Qed.

(** X1: [set_provider] with [set_global=True] writes the default provider
    of the modules whose name starts with the package name and nothing
    else: a module of another package is as it was, no module appears or
    disappears, every default device stays, and the tokens and the file
    stay.  A second [set_provider] overrides the first: the process is the
    one the second call alone would have left. *)
Theorem set_provider_writes_only_the_default (st : state) (provider : option pyval)
    (p : Provider.t) :
  (get_provider canon provider st).1 = Ok p →
  let st' := (set_provider canon provider true st).2 in
  (∀ module, Str.startswith module package_name = false →
             sys_modules st' !! module = sys_modules st !! module)
  ∧ (∀ module, is_Some (sys_modules st' !! module) ↔ is_Some (sys_modules st !! module))
  ∧ (∀ module, default_device <$> sys_modules st' !! module
               = default_device <$> sys_modules st !! module)
  ∧ saved_token st' = saved_token st
  ∧ authfile st' = authfile st
  ∧ (∀ v q, Provider_from_name canon v = Ok q →
            (set_provider canon (Some v) true st').2
            = (set_provider canon (Some v) true st).2).
Proof.
  intros H. rewrite (set_provider_run st provider p H). cbn [snd]. cbv zeta.
  repeat split.
  - intros module Hm. rewrite lookup_setattr_package, Hm.
    destruct (sys_modules st !! module); reflexivity.
  - rewrite lookup_setattr_package. intros [ns Hns].
    destruct (sys_modules st !! module); [eauto | discriminate].
  - rewrite lookup_setattr_package. intros [ns ->]. simpl. eauto.
  - intros module. rewrite lookup_setattr_package.
    destruct (sys_modules st !! module) as [ns|]; [|reflexivity]. simpl.
    destruct (Str.startswith module package_name); reflexivity.
  - intros v q Hq.
    assert (Hgq : ∀ s, (get_provider canon (Some v) s).1 = Ok q).
    { intros s. unfold get_provider, set_provider, bind, ret, lift. simpl.
      rewrite Hq. reflexivity. }
    rewrite !(set_provider_run _ (Some v) q (Hgq _)). cbn [snd].
    apply setattr_package_twice. reflexivity.
Qed.

(** X2: [set_provider()] without a provider, as apis.py calls it when it is
    imported, answers the default provider of apis.py and hands it to
    every module of the package, apis.py included. *)
Theorem set_provider_without_argument_spreads (st : state) (p : Provider.t) :
  read_global default_provider st = (Ok p, st) →
  (set_provider canon None true st).1 = Ok p
  ∧ let st' := (set_provider canon None true st).2 in
    (∀ module ns,
        sys_modules st' !! module = Some ns →
        Str.startswith module package_name = true →
        default_provider ns = Some p)
    ∧ read_global default_provider st' = (Ok p, st').
Proof.
  intros H.
  assert (Hg : (get_provider canon None st).1 = Ok p).
  { unfold get_provider, set_provider.
    rewrite (omitted_provider_is_default _ _ _ H). reflexivity. }
  rewrite (set_provider_run st None p Hg). cbn [fst snd]. cbv zeta.
  split; [reflexivity|]. split.
  - intros module ns Hm Hpre. rewrite lookup_setattr_package in Hm.
    destruct (sys_modules st !! module) as [ns1|]; [|discriminate].
    simpl in Hm. rewrite Hpre in Hm. injection Hm as <-. reflexivity.
  - unfold read_global in *. rewrite lookup_setattr_package.
    destruct (sys_modules st !! this_module) as [ns|]; [|discriminate]. reflexivity.
Qed.

Lemma set_device_run st provider device :
  set_device canon provider device true st
  = match (get_device canon provider device st).1 with
    | Ok dev => (Ok dev, (setattr_package (set_default_device dev) st).2)
    | Raise e => (Raise e, st)
    end.
Proof.
  unfold get_device, set_device.
  destruct (swap_provider_device provider device) as [pr dv].
  rewrite <- !bind_assoc.
  match goal with
  | |- bind ?m _ st = _ => set (r := m); assert (Hr : pure_call r)
  end.
  { subst r. pose proof (pure_get_provider canon). pose proof (pure_Device_init canon).
    pose proof (pure_Device_from_name canon). frame. }
  rewrite (read_then_broadcast r set_default_device st Hr).
  unfold bind at 1. rewrite (pure_call_eq r st Hr).
  destruct (r st).1; reflexivity.
Qed.

(** X3: a [set_device] with [set_global=True] that answers a device makes
    it the default device of every module of the package, apis.py
    included, and touches nothing else: the default providers, the modules
    of other packages, the tokens and the file are as before; a
    [set_device] that raises leaves the whole process as it was.  The
    operations that fall back on the default device then use the new one. *)
Theorem set_device_writes_only_the_default (st : state) (provider device : option pyval) :
  is_Some (sys_modules st !! this_module) →
  let st' := (set_device canon provider device true st).2 in
  (∀ e, (set_device canon provider device true st).1 = Raise e → st' = st)
  ∧ (∀ dev,
      (set_device canon provider device true st).1 = Ok dev →
      read_global default_device st' = (Ok dev, st')
      ∧ (∀ module ns,
            sys_modules st' !! module = Some ns →
            Str.startswith module package_name = true →
            default_device ns = Some dev)
      ∧ (∀ module, Str.startswith module package_name = false →
                   sys_modules st' !! module = sys_modules st !! module)
      ∧ (∀ module, default_provider <$> sys_modules st' !! module
                   = default_provider <$> sys_modules st !! module)
      ∧ saved_token st' = saved_token st
      ∧ authfile st' = authfile st
      ∧ (∀ token, list_properties canon kwargs None None token st'
                  = list_properties canon kwargs None (Some (VDevice dev)) token st')
      ∧ (∀ id_ t,
            get_task_details canon kwargs (VStr id_) (Some t) st'
            = (let name := Provider.name (Device.provider dev) in
               if String.eqb name "tencent"
               then Ok (tencent_get_task_details (Task.mk id_ None) dev (Some t))
               else if String.eqb name "local"
               then Ok (local_get_task_details (Task.mk id_ None) dev (Some t))
               else Raise (UnsupportedProvider name), st'))).
Proof.
  intros [ns0 Hns0]. rewrite set_device_run. cbv zeta.
  destruct (get_device canon provider device st).1 as [dev'|e']; cbn [fst snd].
  2:{ split; [reflexivity | intros dev [=]]. }
  split; [intros e [=]|].
  - intros dev [= ->].
    assert (Hread : read_global default_device
                      (setattr_package (set_default_device dev) st).2
                    = (Ok dev, (setattr_package (set_default_device dev) st).2)).
    { unfold read_global. rewrite lookup_setattr_package, Hns0. reflexivity. }
    split; [exact Hread|]. split; [|split; [|split; [|split; [|split; [|split]]]]].
    + intros module ns Hm Hpre. rewrite lookup_setattr_package in Hm.
      destruct (sys_modules st !! module) as [ns1|]; [|discriminate].
      simpl in Hm. rewrite Hpre in Hm. injection Hm as <-. reflexivity.
    + intros module Hm. rewrite lookup_setattr_package, Hm.
      destruct (sys_modules st !! module); reflexivity.
    + intros module. rewrite lookup_setattr_package.
      destruct (sys_modules st !! module) as [ns|]; [|reflexivity]. simpl.
      destruct (Str.startswith module package_name); reflexivity.
    + reflexivity.
    + reflexivity.
    + intros token. unfold list_properties. cbn [swap_provider_device].
      apply bind_same_start. rewrite (bind_ok _ _ _ _ _ Hread). reflexivity.
    + intros id_ t. unfold get_task_details. cbv zeta.
      erewrite bind_ok by reflexivity. cbn [Task_init Task.device].
      rewrite (bind_ok _ _ _ _ _ Hread), bind_ret.
      repeat case_match; reflexivity.
Qed.

End SettersAround.

(** ** The token store, further *)

Lemma dict_comprehension_all (f : string → option string) (d d' : gmap string string) :
  dict_comprehension f d = Some d' → ∀ k v, d !! k = Some v → is_Some (f v).
Proof.
  intros H k v Hk. unfold dict_comprehension in H.
  destruct (mapM _ _) as [l|] eqn:E; [|discriminate].
  assert (is_Some (mapM (λ kv : string * string, v ← f kv.2; Some (kv.1, v))
                     (map_to_list d))) as Hs by (rewrite E; eauto).
  rewrite mapM_is_Some, Forall_forall in Hs.
  specialize (Hs (k, v)). simpl in Hs.
  destruct (f v); [eauto|]. destruct Hs as [? ?]; [|discriminate].
  apply elem_of_map_to_list. exact Hk.
Qed.

Lemma append_only_empty (s r : string) : s ++ r = s → r = EmptyString.
Proof.
  induction s as [|c s IH]; [rewrite append_nil; auto|].
  rewrite append_cons. intros [= H]. auto.
Qed.

Lemma length_b64encode (s : string) :
  String.length (Base64.b64encode s) = 4 * ((String.length s + 2) / 3).
Proof.
  induction s as [|a|a b|a b c r IH] using string_ind3; try reflexivity.
  cbn [Base64.b64encode String.length]. rewrite IH.
  replace (S (S (S (String.length r))) + 2) with ((String.length r + 2) + 1 * 3) by lia.
  rewrite Nat.div_add by lia. lia.
Qed.

(** X4: when [b64encode_s] answers a text for a str, the text has four
    characters for every three bytes of the UTF-8 form of the str, rounded
    up; no other str has the same text; and [b64decode_s] gives the str
    back from it. *)
Theorem b64encode_s_faithful (s e : string) :
  b64encode_s s = Some e →
  String.length e = 4 * ((String.length s + 2) / 3)
  ∧ (∀ s', b64encode_s s' = Some e → s' = s)
  ∧ (Utf8.valid s = true → b64decode_s e = Some s).
Proof.
  intros He. rewrite b64encode_s_total in He. injection He as <-.
  split; [apply length_b64encode|]. split.
  - intros s' H. rewrite b64encode_s_total in H. injection H as H.
    pose proof (b64decode_b64encode s') as H1. rewrite H, b64decode_b64encode in H1.
    congruence.
  - apply b64decode_s_b64encode.
Qed.

Section TokensFurther.

Variable canon : string → string.

(** What a [set_token] with [cached=True] that returns leaves behind. *)
Lemma set_token_cached_inv st token provider device p d m st1 :
  token_scope canon provider device st = (Ok (p, d), st) →
  map_Forall (λ _ v, Utf8.valid v = true) (saved_token st) →
  (∀ t, token = Some t → Utf8.valid t = true) →
  set_token canon token provider device true st = (Ok m, st1) →
  st1 = mkState (sys_modules st) m (Some (JsonObject (Base64.b64encode <$> m)))
  ∧ map_Forall (λ _ v, Utf8.valid v = true) m
  ∧ (∀ t, token = Some t → m !! token_key p d = Some t).
Proof.
  intros H Hvalid Htoken Hset. destruct token as [t|].
  - rewrite (set_token_with_token canon t provider device true st p d H) in Hset.
    injection Hset as <- <-. repeat split.
    + apply map_Forall_union_2; [|exact Hvalid].
      apply map_Forall_singleton. apply Htoken. reflexivity.
    + intros t' [= <-]. apply lookup_union_Some_l, lookup_singleton_eq.
  - destruct (authfile st) as [[|file_token]|] eqn:Ef.
    + rewrite (set_token_reload_corrupt canon provider device st p d H) in Hset
        by (rewrite Ef; exact I).
      discriminate.
    + destruct (dict_comprehension b64decode_s file_token) as [F|] eqn:EF.
      * rewrite (set_token_reload canon provider device true st p d F H) in Hset
          by (rewrite Ef; exact EF).
        injection Hset as <- <-. repeat split; [|discriminate].
        apply map_Forall_union_2; [exact Hvalid|].
        intros k v Hk.
        pose proof (dict_comprehension_lookup _ _ _ EF k) as Hl. rewrite Hk in Hl.
        destruct (file_token !! k) as [w|]; [|discriminate]. simpl in Hl.
        symmetry in Hl. exact (b64decode_s_valid _ _ Hl).
      * rewrite (set_token_reload_corrupt canon provider device st p d H) in Hset
          by (rewrite Ef; exact EF).
        discriminate.
    + rewrite (set_token_reload canon provider device true st p d ∅ H) in Hset
        by (rewrite Ef; reflexivity).
      injection Hset as <- <-. rewrite (right_id_L ∅ (∪)).
      repeat split; [exact Hvalid | discriminate].
Qed.

(** X5: with [cached=False], [set_token] neither reads nor writes the
    file: without a token it answers the tokens in memory as they are,
    also when the file is no JSON; with a token it stores it in memory
    only. *)
Theorem set_token_uncached_leaves_file (st : state) (token : option string)
    (provider device : option pyval) (p : Provider.t) (d : option Device.t) :
  token_scope canon provider device st = (Ok (p, d), st) →
  let m := match token with
           | Some t => {[ token_key p d := t ]} ∪ saved_token st
           | None => saved_token st
           end in
  set_token canon token provider device false st
  = (Ok m, mkState (sys_modules st) m (authfile st)).
Proof.
  intros H. destruct token as [t|]; cbv zeta.
  - apply (set_token_with_token canon t provider device false st p d H).
  - rewrite (set_token_reload canon provider device false st p d ∅ H) by reflexivity.
    rewrite (right_id_L ∅ (∪)). reflexivity.
Qed.

(** X6: [set_token] without a token and with [cached=True] raises when the
    file is no JSON object or when one of its values is no base64 text of
    a str, and then nothing has changed: the tokens in memory and the file
    are as they were. *)
Theorem set_token_corrupt_file_changes_nothing (st : state)
    (provider device : option pyval) (p : Provider.t) (d : option Device.t) :
  token_scope canon provider device st = (Ok (p, d), st) →
  (authfile st = Some Malformed
   ∨ ∃ file_token k v,
       authfile st = Some (JsonObject file_token)
       ∧ file_token !! k = Some v ∧ b64decode_s v = None) →
  set_token canon None provider device true st = (Raise TokenStoreCorrupt, st).
Proof.
  intros H Hfile. apply (set_token_reload_corrupt canon provider device st p d H).
  destruct Hfile as [-> | (file_token & k & v & -> & Hk & Hv)]; [exact I|].
  destruct (dict_comprehension b64decode_s file_token) as [F|] eqn:EF; [|reflexivity].
  destruct (dict_comprehension_all _ _ _ EF k v Hk) as [w Hw]. congruence.
Qed.

(** X7: [set_token] with a token writes one key: every other key of the
    mapping keeps its value, no key is lost, and the modules are
    untouched; with [cached=True] the file then has exactly the keys of
    the mapping in memory, whatever it held before. *)
Theorem set_token_writes_one_key (st : state) (t : string)
    (provider device : option pyval) (cached : bool)
    (p : Provider.t) (d : option Device.t) :
  token_scope canon provider device st = (Ok (p, d), st) →
  ∃ m st',
    set_token canon (Some t) provider device cached st = (Ok m, st')
    ∧ saved_token st' = m
    ∧ sys_modules st' = sys_modules st
    ∧ (∀ k, k ≠ token_key p d → m !! k = saved_token st !! k)
    ∧ dom m = {[ token_key p d ]} ∪ dom (saved_token st)
    ∧ (cached = true →
       ∃ file_token, authfile st' = Some (JsonObject file_token)
                     ∧ dom file_token = dom m).
Proof.
  intros H. eexists _, _. split; [apply (set_token_with_token canon), H|].
  cbn [saved_token sys_modules authfile]. repeat split.
  - intros k Hk. rewrite lookup_union_r; [reflexivity|].
    apply lookup_singleton_ne. congruence.
  - rewrite dom_union_L, dom_singleton_L. reflexivity.
  - intros ->. eexists. split; [reflexivity|]. apply dom_fmap_L.
Qed.

(** X8: the token of a provider and the token of one of its devices do
    not touch each other, as long as the device has a name: setting the
    one leaves what [get_token] answers for the other. *)
Theorem set_token_scopes_apart (st : state) (t : string) (cached : bool)
    (p : Provider.t) (dev : Device.t) :
  Device.name dev ≠ EmptyString →
  (get_token canon (Some (VProvider p)) None
     (set_token canon (Some t) (Some (VProvider p)) (Some (VDevice dev)) cached st).2).1
  = (get_token canon (Some (VProvider p)) None st).1
  ∧ (get_token canon (Some (VProvider p)) (Some (VDevice dev))
       (set_token canon (Some t) (Some (VProvider p)) None cached st).2).1
    = (get_token canon (Some (VProvider p)) (Some (VDevice dev)) st).1.
Proof.
  intros Hname.
  assert (Hne : token_key p (Some dev) ≠ token_key p None).
  { cbn [token_key]. intros Heq. apply Hname. exact (append_only_empty _ _ Heq). }
  pose proof (λ s, token_scope_handles canon p None s) as H0.
  pose proof (λ s, token_scope_handles canon p (Some dev) s) as H1.
  cbn [fmap option_fmap option_map] in H0, H1.
  split.
  - rewrite (set_token_with_token canon t _ _ cached st p (Some dev) (H1 st)).
    cbn [snd]. rewrite !(get_token_settled canon _ _ _ p None (H0 _)).
    cbn [fst saved_token]. f_equal. rewrite lookup_union_r; [reflexivity|].
    apply lookup_singleton_ne. exact Hne.
  - rewrite (set_token_with_token canon t _ _ cached st p None (H0 st)).
    cbn [snd]. rewrite !(get_token_settled canon _ _ _ p (Some dev) (H1 _)).
    cbn [fst saved_token]. f_equal. rewrite lookup_union_r; [reflexivity|].
    apply lookup_singleton_ne. congruence.
Qed.

(** X9: a [set_token] call with [cached=True] that has returned can be
    repeated at once without effect: the second call answers the same
    mapping and leaves the same process, file included. *)
Theorem set_token_again_changes_nothing (st : state) (token : option string)
    (provider device : option pyval) (p : Provider.t) (d : option Device.t)
    (m : gmap string string) (st1 : state) :
  token_scope canon provider device st = (Ok (p, d), st) →
  map_Forall (λ _ v, Utf8.valid v = true) (saved_token st) →
  (∀ t, token = Some t → Utf8.valid t = true) →
  set_token canon token provider device true st = (Ok m, st1) →
  set_token canon token provider device true st1 = (Ok m, st1).
Proof.
  intros H Hvalid Htoken Hset.
  destruct (set_token_cached_inv st token provider device p d m st1 H Hvalid Htoken Hset)
    as (-> & Hvm & Hkey).
  set (st1 := mkState _ _ _).
  assert (Hs1 : token_scope canon provider device st1 = (Ok (p, d), st1))
    by (apply (token_scope_same_modules canon _ _ st); [reflexivity | exact H]).
  destruct token as [t|].
  - rewrite (set_token_with_token canon t provider device true st1 p d Hs1).
    subst st1. cbn [saved_token sys_modules].
    assert ({[ token_key p d := t ]} ∪ m = m) as ->; [|reflexivity].
    apply map_eq. intros k. destruct (decide (k = token_key p d)) as [->|Hk].
    + rewrite (lookup_union_Some_l _ _ _ t) by apply lookup_singleton_eq.
      symmetry. apply Hkey. reflexivity.
    + rewrite lookup_union_r; [reflexivity|]. apply lookup_singleton_ne. congruence.
  - destruct (decode_encoded_dict m Hvm) as [_ Hdec].
    rewrite (set_token_reload canon provider device true st1 p d m Hs1)
      by exact Hdec.
    subst st1. cbn [saved_token sys_modules]. rewrite (idemp_L (∪) m). reflexivity.
Qed.

(** X10: [get_token] changes nothing and looks at the tokens in memory
    only: what it answers does not depend on the file. *)
Theorem get_token_reads_memory_only (st : state) (provider device : option pyval)
    (file : option file_content) :
  (get_token canon provider device st).2 = st
  ∧ (get_token canon provider device
       (mkState (sys_modules st) (saved_token st) file)).1
    = (get_token canon provider device st).1.
Proof.
  split; [apply (pure_get_token canon)|].
  set (st' := mkState (sys_modules st) (saved_token st) file).
  rewrite !get_token_scope. unfold bind.
  rewrite (pure_call_eq _ st' (pure_token_scope canon provider device)).
  rewrite (pure_call_eq _ st (pure_token_scope canon provider device)).
  rewrite (reads_modules_token_scope canon provider device st' st) by reflexivity.
  destruct (token_scope canon provider device st).1; reflexivity.
Qed.

End TokensFurther.

(** ** The operations on providers, devices and tasks, further *)

Lemma pure_for_each {A B} (f : A → M B) (l : list A) :
  (∀ x, pure_call (f x)) → pure_call (for_each f l).
Proof. intros Hf. induction l as [|x l IH]; simpl; frame. Qed.

Section Operations.

Variable canon : string → string.
Variable sep2 : string.
Variable kwargs : Type.

Ltac run_calls :=
  repeat first
    [ erewrite bind_ok by first [eassumption | reflexivity]
    | erewrite bind_raise by reflexivity
    | progress simpl ].

Lemma pure_call_get_token x : pure_call (call_get_token canon x).
Proof.
  pose proof (pure_get_token canon).
  destruct x; unfold call_get_token, Provider_get_token, Device_get_token; frame.
Qed.

Lemma pure_call_get_device x : pure_call (call_get_device x).
Proof. unfold call_get_device. frame. Qed.

(** X11: the operations that list, look up, submit and remove leave the
    process as it was, whatever they are given and whether they answer or
    raise: no default, no token in memory and no file is touched. *)
Theorem operations_leave_the_process (st : state) (provider device : option pyval)
    (task : pyval) (otask : option pyval) (taskid : string) (token : option string)
    (kws : kwargs) :
  (list_providers canon st).2 = st
  ∧ (list_devices canon kwargs provider token st).2 = st
  ∧ (list_properties canon kwargs provider device token st).2 = st
  ∧ (get_task canon sep2 taskid provider device st).2 = st
  ∧ (get_task_details canon kwargs task token st).2 = st
  ∧ (submit_task canon kwargs provider device token kws st).2 = st
  ∧ (resubmit_task canon kwargs otask token st).2 = st
  ∧ (remove_task canon kwargs otask token st).2 = st
  ∧ (list_tasks canon kwargs provider device token kws st).2 = st.
Proof.
  pose proof (pure_get_provider canon) as H1.
  pose proof (pure_Device_init canon) as H2.
  pose proof (pure_Device_from_name canon) as H3.
  pose proof (pure_get_device canon) as H4.
  pose proof (pure_get_token canon) as H5.
  pose proof pure_call_get_token as H6.
  pose proof pure_call_get_device as H7.
  assert (H8 : ∀ p, pure_call (Provider_get_token canon p))
    by (intros; apply H5).
  assert (H9 : ∀ d, pure_call (Device_get_token canon d))
    by (intros; apply H5).
  repeat apply conj.
  - apply pure_for_each. intros x. apply H1.
  - revert st. change (pure_call (list_devices canon kwargs provider token)).
    unfold list_devices. frame.
  - revert st. change (pure_call (list_properties canon kwargs provider device token)).
    unfold list_properties. frame.
  - apply (pure_get_task canon).
  - revert st. change (pure_call (get_task_details canon kwargs task token)).
    unfold get_task_details. frame.
  - revert st. change (pure_call (submit_task canon kwargs provider device token kws)).
    unfold submit_task. frame.
  - revert st. change (pure_call (resubmit_task canon kwargs otask token)).
    unfold resubmit_task. frame.
  - revert st. change (pure_call (remove_task canon kwargs otask token)).
    unfold remove_task. frame.
  - revert st. change (pure_call (list_tasks canon kwargs provider device token kws)).
    unfold list_tasks. frame.
Qed.

(** X12: which token reaches the tencent backend.  A token that is passed
    is handed on; without one, [list_devices] and [list_tasks] look up the
    token of the provider alone, [list_tasks] also when a device is
    given, and the operations on a device or a task look up the token of
    the device. *)
Theorem token_handed_to_tencent (st : state) (d : Device.t) (id_ : string)
    (token : option string) (kws : kwargs) :
  let p := Device.provider d in
  let task := Task.mk id_ (Some d) in
  let of_provider := match token with
                     | Some _ => token
                     | None => saved_token st !! (Provider.name p ++ sep)
                     end in
  let of_device := match token with
                   | Some _ => token
                   | None => saved_token st !! ((Provider.name p ++ sep) ++ Device.name d)
                   end in
  Provider.name p = "tencent" →
  list_devices canon kwargs (Some (VProvider p)) token st
    = (Ok (tencent_list_devices of_provider), st)
  ∧ list_tasks canon kwargs (Some (VProvider p)) (Some (VDevice d)) token kws st
    = (Ok (tencent_list_tasks (Some d) of_provider kws), st)
  ∧ list_tasks canon kwargs (Some (VProvider p)) None token kws st
    = (Ok (tencent_list_tasks None of_provider kws), st)
  ∧ list_properties canon kwargs None (Some (VDevice d)) token st
    = (Ok (tencent_list_properties d of_device), st)
  ∧ submit_task canon kwargs None (Some (VDevice d)) token kws st
    = (Ok (tencent_submit_task (VDevice d) of_device kws), st)
  ∧ get_task_details canon kwargs (VTask task) token st
    = (Ok (tencent_get_task_details task d of_device), st)
  ∧ resubmit_task canon kwargs (Some (VTask task)) token st
    = (Ok (tencent_resubmit_task task of_device), st)
  ∧ remove_task canon kwargs (Some (VTask task)) token st
    = (Ok (tencent_remove_task task of_device), st).
Proof.
  intros p task of_provider of_device Hname.
  assert (Ht : (Provider.name p =? "tencent")%string = true)
    by (rewrite Hname; reflexivity).
  pose proof (Provider_get_token_ok canon p st) as Hpt.
  pose proof (Device_get_token_ok canon d st) as Hdt.
  pose proof (token_or_lookup token _ st _ Hpt) as Hpt'.
  pose proof (token_or_lookup token _ st _ Hdt) as Hdt'.
  cbn [token_key] in Hpt', Hdt'. fold p in Hdt'.
  repeat apply conj;
    unfold list_devices, get_task_details, submit_task, list_tasks, list_properties,
      resubmit_task, remove_task;
    run_calls; fold p; rewrite ?Ht; reflexivity.
Qed.

(** X13: the provider local has a backend for listing devices, for
    submitting, for the details of a task and for listing tasks, and none
    for the properties of a device, for resubmitting and for removing:
    these three raise UnsupportedProvider for it. *)
Theorem local_backend_is_partial (st : state) (d : Device.t) (id_ : string)
    (token : option string) (kws : kwargs) :
  let p := Device.provider d in
  let task := Task.mk id_ (Some d) in
  let of_provider := match token with
                     | Some _ => token
                     | None => saved_token st !! (Provider.name p ++ sep)
                     end in
  let of_device := match token with
                   | Some _ => token
                   | None => saved_token st !! ((Provider.name p ++ sep) ++ Device.name d)
                   end in
  Provider.name p = "local" →
  list_devices canon kwargs (Some (VProvider p)) token st
    = (Ok (local_list_devices of_provider), st)
  ∧ list_tasks canon kwargs (Some (VProvider p)) (Some (VDevice d)) token kws st
    = (Ok (local_list_tasks (Some d) of_provider kws), st)
  ∧ submit_task canon kwargs None (Some (VDevice d)) token kws st
    = (Ok (local_submit_task (VDevice d) of_device kws), st)
  ∧ get_task_details canon kwargs (VTask task) token st
    = (Ok (local_get_task_details task d of_device), st)
  ∧ list_properties canon kwargs None (Some (VDevice d)) token st
    = (Raise (UnsupportedProvider "local"), st)
  ∧ resubmit_task canon kwargs (Some (VTask task)) token st
    = (Raise (UnsupportedProvider "local"), st)
  ∧ remove_task canon kwargs (Some (VTask task)) token st
    = (Raise (UnsupportedProvider "local"), st).
Proof.
  intros p task of_provider of_device Hname.
  assert (Ht : (Provider.name p =? "tencent")%string = false)
    by (rewrite Hname; reflexivity).
  assert (Hl : (Provider.name p =? "local")%string = true)
    by (rewrite Hname; reflexivity).
  pose proof (Provider_get_token_ok canon p st) as Hpt.
  pose proof (Device_get_token_ok canon d st) as Hdt.
  pose proof (token_or_lookup token _ st _ Hpt) as Hpt'.
  pose proof (token_or_lookup token _ st _ Hdt) as Hdt'.
  cbn [token_key] in Hpt', Hdt'. fold p in Hdt'.
  repeat apply conj;
    unfold list_devices, get_task_details, submit_task, list_tasks, list_properties,
      resubmit_task, remove_task;
    run_calls; fold p; rewrite ?Ht, ?Hl; try reflexivity; rewrite Hname; reflexivity.
Qed.

End Operations.

(** ** The import of apis.py and the list of providers *)




Section ImportOfApis.

Variable canon : string → string.
Variable kwargs : Type.



(** X15: [list_providers] answers the two providers of [avail_providers],
    tencent first, whatever the defaults are; where the canonical names of
    tencent and local are these names, [list_devices] has a backend for
    each provider of the list. *)
Theorem listed_providers_have_backends (st : state) (token : option string) :
  canon "tencent" = "tencent" → canon "local" = "local" →
  ∃ l, list_providers canon st = (Ok l, st)
     ∧ Provider.name <$> l = avail_providers
     ∧ ∀ p, p ∈ l →
         ∃ call, list_devices canon kwargs (Some (VProvider p)) token st = (Ok call, st).
Proof.
  intros Ht Hl. eexists. split; [reflexivity|]. split.
  - simpl. rewrite Ht, Hl. reflexivity.
  - intros p Hp.
    pose proof (Provider_get_token_ok canon p st) as Hpt.
    pose proof (token_or_lookup token _ st _ Hpt) as Hpt'.
    unfold list_devices.
    rewrite (bind_ok _ _ st (VProvider p) st eq_refl).
    rewrite (bind_ok _ _ st p st eq_refl).
    erewrite bind_ok by exact Hpt'.
    apply elem_of_cons in Hp as [-> | Hp]; [simpl; rewrite Ht; eexists; reflexivity|].
    apply elem_of_cons in Hp as [-> | Hp]; [simpl; rewrite Hl; eexists; reflexivity|].
    apply elem_of_nil in Hp. contradiction.
Qed.

End ImportOfApis.

(** ** The statements at work on a concrete process *)

(** C6 at work: after [set_provider("local")] in the imported process,
    [get_provider()] answers the provider local. *)
Lemma set_provider_seen_by_readers_witness :
  is_provider_arg (VStr "local") = true
  ∧ is_Some (sys_modules booted !! this_module)
  ∧ get_provider canon_same None
      (set_provider canon_same (Some (VStr "local")) true booted).2
    = (Ok (Provider.mk "local"),
       (set_provider canon_same (Some (VStr "local")) true booted).2).
Proof.
  assert (H1 : is_provider_arg (VStr "local") = true) by reflexivity.
  assert (H2 : is_Some (sys_modules booted !! this_module))
    by (vm_compute; eexists; reflexivity).
  split; [exact H1|]. split; [exact H2|].
  destruct (set_provider_seen_by_readers canon_same unit booted (VStr "local") H1 H2)
    as (p & _ & Hfrom & _ & _ & Hget & _).
  injection Hfrom as <-. exact Hget.
Defined.

(** C3 at work: with a token for the provider tencent alone, the token of
    the device 20xmon of tencent is None. *)
Lemma get_token_exact_key_witness :
  token_scope canon_same (Some (VStr "tencent")) (Some (VStr "20xmon")) with_provider_token
    = (Ok (tencent_provider, Some (Device.mk "20xmon" tencent_provider)), with_provider_token)
  ∧ saved_token with_provider_token !! "tencent::" = Some "secret"
  ∧ (get_token canon_same (Some (VStr "tencent")) (Some (VStr "20xmon"))
       with_provider_token).1 = Ok None.
Proof.
  assert (H : token_scope canon_same (Some (VStr "tencent")) (Some (VStr "20xmon"))
                with_provider_token
              = (Ok (tencent_provider, Some (Device.mk "20xmon" tencent_provider)), with_provider_token))
    by (vm_compute; reflexivity).
  split; [exact H|]. split; [vm_compute; reflexivity|].
  destruct (get_token_exact_key canon_same with_provider_token _ _ _ _ H) as [_ Hnone].
  apply (Hnone (Device.mk "20xmon" tencent_provider)); [reflexivity | vm_compute; reflexivity].
Defined.

(** C4 at work: a token set for the device 20xmon of tencent is read
    back. *)
Lemma set_token_then_get_token_witness :
  token_scope canon_same (Some (VStr "tencent")) (Some (VStr "20xmon")) booted
    = (Ok (tencent_provider, Some (Device.mk "20xmon" tencent_provider)), booted)
  ∧ ∃ m st',
      set_token canon_same (Some "secret") (Some (VStr "tencent")) (Some (VStr "20xmon"))
        true booted = (Ok m, st')
      ∧ m !! "tencent::20xmon" = Some "secret"
      ∧ get_token canon_same (Some (VStr "tencent")) (Some (VStr "20xmon")) st'
        = (Ok (Some "secret"), st').
Proof.
  assert (H : token_scope canon_same (Some (VStr "tencent")) (Some (VStr "20xmon")) booted
              = (Ok (tencent_provider, Some (Device.mk "20xmon" tencent_provider)), booted))
    by (vm_compute; reflexivity).
  split; [exact H|].
  exact (set_token_then_get_token canon_same booted "secret" _ _ true _ _ H).
Defined.

(** C2 at work: the token in memory stays, the token of the file for
    another key is taken in. *)
Lemma set_token_reload_merges_witness :
  token_scope canon_same None None memory_over_file = (Ok (tencent_provider, None), memory_over_file)
  ∧ ∃ R, (set_token canon_same None None None true memory_over_file).1 = Ok R
       ∧ R !! "tencent::" = Some "in-memory"
       ∧ R !! "local::" = Some "local-token".
Proof.
  assert (H : token_scope canon_same None None memory_over_file
              = (Ok (tencent_provider, None), memory_over_file)) by (vm_compute; reflexivity).
  split; [exact H|].
  destruct (set_token_reload_merges canon_same memory_over_file None None tencent_provider None H)
    as (Hfile & _ & _).
  destruct (Hfile
              (list_to_map [("tencent::", "b24tZGlzaw=="); ("local::", "bG9jYWwtdG9rZW4=")])
              (list_to_map [("tencent::", "on-disk"); ("local::", "local-token")]))
    as (R & HR & _ & Hmem & Hdisk & _).
  - reflexivity.
  - vm_compute. reflexivity.
  - exists R. split; [exact HR|]. split.
    + apply Hmem. vm_compute. reflexivity.
    + apply Hdisk; vm_compute; reflexivity.
Defined.

(** C5 at work: the token written to the file comes back in a process
    with the same file and no token in memory. *)
Lemma persist_then_fresh_load_witness :
  token_scope canon_same (Some (VStr "tencent")) None booted = (Ok (tencent_provider, None), booted)
  ∧ set_token canon_same (Some "secret") (Some (VStr "tencent")) None true booted
    = (Ok {[ "tencent::" := "secret" ]}, with_provider_token)
  ∧ (set_token canon_same None (Some (VStr "tencent")) None true
       (mkState (sys_modules with_provider_token) ∅ (authfile with_provider_token))).1
    = Ok {[ "tencent::" := "secret" ]}.
Proof.
  assert (H : token_scope canon_same (Some (VStr "tencent")) None booted
              = (Ok (tencent_provider, None), booted)) by (vm_compute; reflexivity).
  assert (Hset : set_token canon_same (Some "secret") (Some (VStr "tencent")) None true booted
                 = (Ok {[ "tencent::" := "secret" ]}, with_provider_token))
    by (vm_compute; reflexivity).
  split; [exact H|]. split; [exact Hset|].
  destruct (persist_then_fresh_load canon_same booted (Some "secret")
              (Some (VStr "tencent")) None tencent_provider None
              {[ "tencent::" := "secret" ]} with_provider_token H)
    as (_ & _ & _ & Hload).
  - change (saved_token booted) with (∅ : gmap string string). apply map_Forall_empty.
  - intros t [= <-]. reflexivity.
  - exact Hset.
  - apply Hload; reflexivity.
Defined.

(** C7 at work: the reference of the spec, with "~~" for [sep2]. *)
Lemma get_task_splits_reference_witness :
  sep2_tilde ≠ EmptyString
  ∧ get_task canon_same sep2_tilde "tencent::20xmon~~abc123" None None booted
    = (Ok (Task.mk "abc123" (Some (Device.mk "20xmon" tencent_provider))), booted).
Proof.
  assert (H : sep2_tilde ≠ EmptyString) by discriminate.
  split; [exact H|].
  destruct (get_task_splits_reference canon_same sep2_tilde booted H) as (_ & _ & Hex & _).
  apply Hex; reflexivity.
Defined.

(** C9 at work: the device "tencent::20xmon" with the provider local. *)
Lemma device_prefix_against_provider_witness :
  Str.split "tencent::20xmon" sep = ["tencent"; "20xmon"]
  ∧ Provider_from_name canon_same (VStr "local") = Ok (Provider.mk "local")
  ∧ (set_device canon_same (Some (VStr "local")) (Some (VStr "tencent::20xmon")) true
       booted).1 = Raise ProviderDeviceMismatch
  ∧ (set_device canon_same (Some (VStr "tencent")) (Some (VStr "tencent::20xmon")) true
       booted).1 = Ok (Device.mk "20xmon" tencent_provider).
Proof.
  assert (H1 : Str.split "tencent::20xmon" sep = ["tencent"; "20xmon"]) by reflexivity.
  assert (H2 : Provider_from_name canon_same (VStr "local") = Ok (Provider.mk "local"))
    by reflexivity.
  split; [exact H1|]. split; [exact H2|]. split.
  - destruct (device_prefix_against_provider canon_same unit booted _ _ _ _ _ _ true None tt
                H1 H2) as (Hne & _ & _).
    apply Hne. discriminate.
  - assert (H3 : Provider_from_name canon_same (VStr "tencent") = Ok tencent_provider)
      by reflexivity.
    destruct (device_prefix_against_provider canon_same unit booted _ _ _ _ _ _ true None tt
                H1 H3) as (_ & Heq & _).
    apply Heq. reflexivity.
Defined.

(** C8 as stated fails: [set_device("tencent")], a provider and no device,
    does not raise; it answers a device named "tencent" of the default
    provider. *)
Lemma set_device_provider_alone_counterexample :
  (set_device canon_same (Some (VStr "tencent")) None true booted).1
    = Ok (Device.mk "tencent" tencent_provider)
  ∧ (set_device canon_same (Some (VStr "tencent")) None true booted).1
    ≠ Raise AmbiguousDeviceSpecification.
Proof. split; [vm_compute; reflexivity | vm_compute; discriminate]. Qed.

(** C2 as stated fails with [cached=False]: the file is not read, and a
    key that the file alone holds is not in the answer. *)
Lemma set_token_reload_merges_counterexample :
  ∃ file_token F R,
    authfile memory_over_file = Some (JsonObject file_token)
    ∧ dict_comprehension b64decode_s file_token = Some F
    ∧ saved_token memory_over_file !! "local::" = None
    ∧ F !! "local::" = Some "local-token"
    ∧ (set_token canon_same None None None false memory_over_file).1 = Ok R
    ∧ R !! "local::" = None.
Proof.
  exists (list_to_map [("tencent::", "b24tZGlzaw=="); ("local::", "bG9jYWwtdG9rZW4=")]),
    (list_to_map [("tencent::", "on-disk"); ("local::", "local-token")]),
    {[ "tencent::" := "in-memory" ]}.
  repeat split; vm_compute; reflexivity.
Qed.

(** C7 as stated fails where the separator occurs twice: the id is not
    the right side "abc~~123" of the reference but its first segment. *)
Lemma get_task_splits_reference_counterexample :
  get_task canon_same sep2_tilde "tencent::20xmon~~abc~~123" None None booted
    = (Ok (Task.mk "abc" (Some (Device.mk "20xmon" tencent_provider))), booted)
  ∧ get_task canon_same sep2_tilde "tencent::20xmon~~abc~~123" None None booted
    ≠ (Ok (Task.mk "abc~~123" (Some (Device.mk "20xmon" tencent_provider))), booted).
Proof. split; [vm_compute; reflexivity | vm_compute; discriminate]. Qed.

(** C6 as stated fails for the operations that leave out the provider
    and the device: after [set_provider("local")], [get_provider()]
    answers local, and [submit_task()] and [list_properties()] still go to
    the backend of tencent, the provider of the default device. *)
Lemma set_provider_seen_by_readers_counterexample :
  let st' := (set_provider canon_same (Some (VStr "local")) true booted).2 in
  get_provider canon_same None st' = (Ok local_provider, st')
  ∧ submit_task canon_same unit None None (Some "secret") tt st'
    = (Ok (tencent_submit_task (VDevice tencent_device) (Some "secret") tt), st')
  ∧ list_properties canon_same unit None None (Some "secret") st'
    = (Ok (tencent_list_properties tencent_device (Some "secret")), st').
Proof. repeat split; vm_compute; reflexivity. Qed.

(** ** The further properties at work on a concrete process *)

(** X1 at work: [set_provider("local")] in the imported process leaves
    the module numpy and the tokens as they were. *)
Lemma set_provider_writes_only_the_default_witness :
  (get_provider canon_same (Some (VStr "local")) booted).1 = Ok local_provider
  ∧ sys_modules (set_provider canon_same (Some (VStr "local")) true booted).2 !! "numpy"
    = sys_modules booted !! "numpy"
  ∧ saved_token (set_provider canon_same (Some (VStr "local")) true booted).2
    = saved_token booted.
Proof.
  assert (H : (get_provider canon_same (Some (VStr "local")) booted).1 = Ok local_provider)
    by reflexivity.
  split; [exact H|].
  destruct (set_provider_writes_only_the_default canon_same booted _ _ H)
    as (Hm & _ & _ & Hs & _).
  split; [apply Hm; reflexivity | exact Hs].
Defined.

(** X2 at work: in the imported process [set_provider()] answers
    tencent. *)
Lemma set_provider_without_argument_spreads_witness :
  read_global default_provider booted = (Ok tencent_provider, booted)
  ∧ (set_provider canon_same None true booted).1 = Ok tencent_provider.
Proof.
  assert (H : read_global default_provider booted = (Ok tencent_provider, booted))
    by (vm_compute; reflexivity).
  split; [exact H|].
  exact (proj1 (set_provider_without_argument_spreads canon_same booted _ H)).
Defined.

(** X3 at work: after [set_device("local", "testing")] the default device
    of apis.py is testing of local. *)
Lemma set_device_writes_only_the_default_witness :
  is_Some (sys_modules booted !! this_module)
  ∧ (set_device canon_same (Some (VStr "local")) (Some (VStr "testing")) true booted).1
    = Ok local_device
  ∧ read_global default_device
      (set_device canon_same (Some (VStr "local")) (Some (VStr "testing")) true booted).2
    = (Ok local_device,
       (set_device canon_same (Some (VStr "local")) (Some (VStr "testing")) true booted).2).
Proof.
  assert (H : is_Some (sys_modules booted !! this_module))
    by (vm_compute; eexists; reflexivity).
  assert (Hdev : (set_device canon_same (Some (VStr "local")) (Some (VStr "testing"))
                    true booted).1 = Ok local_device)
    by (vm_compute; reflexivity).
  split; [exact H|]. split; [exact Hdev|].
  destruct (set_device_writes_only_the_default canon_same unit booted
              (Some (VStr "local")) (Some (VStr "testing")) H) as [_ Hok].
  exact (proj1 (Hok local_device Hdev)).
Defined.

(** X4 at work: the text of "token1" has eight characters and decodes
    to "token1". *)
Lemma b64encode_s_faithful_witness :
  b64encode_s "token1" = Some "dG9rZW4x"
  ∧ String.length "dG9rZW4x" = 4 * ((String.length "token1" + 2) / 3)
  ∧ b64decode_s "dG9rZW4x" = Some "token1".
Proof.
  assert (H : b64encode_s "token1" = Some "dG9rZW4x") by reflexivity.
  split; [exact H|].
  destruct (b64encode_s_faithful "token1" "dG9rZW4x" H) as (Hlen & _ & Hdec).
  split; [exact Hlen | exact (Hdec eq_refl)].
Defined.

(** X5 at work: next to a file that is no JSON, [set_token(cached=False)]
    answers the tokens in memory and leaves the file. *)
Lemma set_token_uncached_leaves_file_witness :
  token_scope canon_same None None corrupt_file = (Ok (tencent_provider, None), corrupt_file)
  ∧ set_token canon_same None None None false corrupt_file
    = (Ok (saved_token corrupt_file),
       mkState (sys_modules corrupt_file) (saved_token corrupt_file) (Some Malformed)).
Proof.
  assert (H : token_scope canon_same None None corrupt_file
              = (Ok (tencent_provider, None), corrupt_file)) by (vm_compute; reflexivity).
  split; [exact H|].
  exact (set_token_uncached_leaves_file canon_same corrupt_file None None None _ _ H).
Defined.

(** X6 at work: next to the same file, [set_token()] raises and changes
    nothing. *)
Lemma set_token_corrupt_file_changes_nothing_witness :
  token_scope canon_same None None corrupt_file = (Ok (tencent_provider, None), corrupt_file)
  ∧ authfile corrupt_file = Some Malformed
  ∧ set_token canon_same None None None true corrupt_file
    = (Raise TokenStoreCorrupt, corrupt_file).
Proof.
  assert (H : token_scope canon_same None None corrupt_file
              = (Ok (tencent_provider, None), corrupt_file)) by (vm_compute; reflexivity).
  assert (Hf : authfile corrupt_file = Some Malformed) by reflexivity.
  split; [exact H|]. split; [exact Hf|].
  exact (set_token_corrupt_file_changes_nothing canon_same corrupt_file None None _ _ H
           (or_introl Hf)).
Defined.

(** X7 at work: a token for the device 20xmon of tencent is written to
    memory and to the file under the same keys. *)
Lemma set_token_writes_one_key_witness :
  token_scope canon_same (Some (VStr "tencent")) (Some (VStr "20xmon")) booted
    = (Ok (tencent_provider, Some (Device.mk "20xmon" tencent_provider)), booted)
  ∧ ∃ m st',
      set_token canon_same (Some "secret") (Some (VStr "tencent")) (Some (VStr "20xmon"))
        true booted = (Ok m, st')
      ∧ saved_token st' = m
      ∧ ∃ file_token, authfile st' = Some (JsonObject file_token)
                      ∧ dom file_token = dom m.
Proof.
  assert (H : token_scope canon_same (Some (VStr "tencent")) (Some (VStr "20xmon")) booted
              = (Ok (tencent_provider, Some (Device.mk "20xmon" tencent_provider)), booted))
    by (vm_compute; reflexivity).
  split; [exact H|].
  destruct (set_token_writes_one_key canon_same booted "secret" _ _ true _ _ H)
    as (m & st' & Hset & Hm & _ & _ & _ & Hfile).
  exists m, st'. split; [exact Hset|]. split; [exact Hm|]. exact (Hfile eq_refl).
Defined.

(** X8 at work: a token set for the device 20xmon of tencent leaves the
    token of tencent alone as it was. *)
Lemma set_token_scopes_apart_witness :
  Device.name (Device.mk "20xmon" tencent_provider) ≠ EmptyString
  ∧ (get_token canon_same (Some (VProvider tencent_provider)) None
       (set_token canon_same (Some "other") (Some (VProvider tencent_provider))
          (Some (VDevice (Device.mk "20xmon" tencent_provider))) false
          with_provider_token).2).1
    = (get_token canon_same (Some (VProvider tencent_provider)) None with_provider_token).1.
Proof.
  assert (H : Device.name (Device.mk "20xmon" tencent_provider) ≠ EmptyString)
    by discriminate.
  split; [exact H|].
  exact (proj1 (set_token_scopes_apart canon_same with_provider_token "other" false
                  tencent_provider (Device.mk "20xmon" tencent_provider) H)).
Defined.

(** X9 at work: [set_token("secret", "tencent")] a second time. *)
Lemma set_token_again_changes_nothing_witness :
  token_scope canon_same (Some (VStr "tencent")) None booted
    = (Ok (tencent_provider, None), booted)
  ∧ set_token canon_same (Some "secret") (Some (VStr "tencent")) None true booted
    = (Ok {[ "tencent::" := "secret" ]}, with_provider_token)
  ∧ set_token canon_same (Some "secret") (Some (VStr "tencent")) None true
      with_provider_token
    = (Ok {[ "tencent::" := "secret" ]}, with_provider_token).
Proof.
  assert (H : token_scope canon_same (Some (VStr "tencent")) None booted
              = (Ok (tencent_provider, None), booted)) by (vm_compute; reflexivity).
  assert (Hset : set_token canon_same (Some "secret") (Some (VStr "tencent")) None true booted
                 = (Ok {[ "tencent::" := "secret" ]}, with_provider_token))
    by (vm_compute; reflexivity).
  split; [exact H|]. split; [exact Hset|].
  apply (set_token_again_changes_nothing canon_same booted (Some "secret")
           (Some (VStr "tencent")) None tencent_provider None _ _ H).
  - assert (saved_token booted = ∅) as -> by (vm_compute; reflexivity).
    apply map_Forall_empty.
  - intros t [= <-]. reflexivity.
  - exact Hset.
Defined.

(** X12 at work: a token passed to [list_devices] reaches the tencent
    backend. *)
Lemma token_handed_to_tencent_witness :
  Provider.name (Device.provider tencent_device) = "tencent"
  ∧ list_devices canon_same unit (Some (VProvider tencent_provider)) (Some "secret") booted
    = (Ok (tencent_list_devices (Some "secret")), booted).
Proof.
  assert (H : Provider.name (Device.provider tencent_device) = "tencent") by reflexivity.
  split; [exact H|].
  exact (proj1 (token_handed_to_tencent canon_same unit booted tencent_device "id"
                  (Some "secret") tt H)).
Defined.

(** X13 at work: a task of a device of local cannot be removed. *)
Lemma local_backend_is_partial_witness :
  Provider.name (Device.provider local_device) = "local"
  ∧ remove_task canon_same unit (Some (VTask (Task.mk "id" (Some local_device)))) None booted
    = (Raise (UnsupportedProvider "local"), booted).
Proof.
  assert (H : Provider.name (Device.provider local_device) = "local") by reflexivity.
  split; [exact H|].
  destruct (local_backend_is_partial canon_same unit booted local_device "id" None tt H)
    as (_ & _ & _ & _ & _ & _ & Hremove).
  exact Hremove.
Defined.

(** X15 at work: the providers listed in the imported process. *)
Lemma listed_providers_have_backends_witness :
  canon_same "tencent" = "tencent"
  ∧ canon_same "local" = "local"
  ∧ ∃ l, list_providers canon_same booted = (Ok l, booted)
       ∧ Provider.name <$> l = avail_providers.
Proof.
  split; [reflexivity|]. split; [reflexivity|].
  destruct (listed_providers_have_backends canon_same unit booted None eq_refl eq_refl)
    as (l & Hl & Hnames & _).
  exists l. split; [exact Hl | exact Hnames].
Defined.
Example split_device : Str.split "tencent::simulator:tc" "::" = ["tencent"; "simulator:tc"].
Proof. reflexivity. Qed.

Example split_three : Str.split "a~~b~~c" "~~" = ["a"; "b"; "c"].
Proof. reflexivity. Qed.

Example split_overlap : Str.split "a:::b" "::" = ["a"; ":b"].
Proof. reflexivity. Qed.

Example split_trailing : Str.split "a::" "::" = ["a"; ""].
Proof. reflexivity. Qed.

Example split_none : Str.split "abc123" "~~" = ["abc123"].
Proof. reflexivity. Qed.

Example b64encode_s_ex : b64encode_s "token1" = Some "dG9rZW4x".
Proof. reflexivity. Qed.

Example b64encode_s_pad2 : b64encode_s "ab12" = Some "YWIxMg==".
Proof. reflexivity. Qed.

Example b64decode_s_ex : b64decode_s "YWIxMjM=" = Some "ab123".
Proof. reflexivity. Qed.

Example b64decode_s_short : b64decode_s "YWI" = None.
Proof. reflexivity. Qed.

(** The import of apis.py binds the defaults and creates the file. *)
Example import_apis_defaults :
  (import_apis canon_same fresh_process).1 = Ok tt
  ∧ read_global default_provider booted = (Ok tencent_provider, booted)
  ∧ read_global default_device booted = (Ok (Device.mk "simulator:tc" tencent_provider), booted)
  ∧ authfile booted = Some (JsonObject ∅).
Proof. repeat split; vm_compute; reflexivity. Qed.

(** A provider without backend, as a string and alone: UnsupportedProvider. *)
Example list_devices_nonexistent :
  (list_devices canon_same unit (Some (VStr "nonexistent")) None booted).1
  = Raise (UnsupportedProvider "nonexistent").
Proof. vm_compute. reflexivity. Qed.

(** The same string next to a device: AttributeError. *)
Example submit_task_nonexistent :
  (submit_task canon_same unit (Some (VStr "nonexistent")) (Some (VStr "simulator:tc"))
     None tt booted).1 = Raise AttributeError.
Proof. vm_compute. reflexivity. Qed.

Example list_properties_nonexistent :
  (list_properties canon_same unit (Some (VStr "nonexistent")) (Some (VStr "simulator:tc"))
     None booted).1 = Raise AttributeError.
Proof. vm_compute. reflexivity. Qed.

(** And so for a provider that has a backend. *)
Example submit_task_tencent_as_string :
  (submit_task canon_same unit (Some (VStr "tencent")) (Some (VStr "simulator:tc"))
     None tt booted).1 = Raise AttributeError.
Proof. vm_compute. reflexivity. Qed.

(** Without a provider argument the device's provider is dispatched on. *)
Example submit_task_default :
  (submit_task canon_same unit None None None tt booted).1
  = Ok (tencent_submit_task (VDevice (Device.mk "simulator:tc" tencent_provider)) None tt).
Proof. vm_compute. reflexivity. Qed.

(** A second separator ends the id. *)
Example get_task_two_separators :
  (get_task canon_same sep2_tilde "tencent::20xmon~~abc~~123" None None booted).1
  = Ok (Task.mk "abc" (Some (Device.mk "20xmon" tencent_provider))).
Proof. vm_compute. reflexivity. Qed.
